(** * Call-identity correlation and call-setup orchestration (daily-plivo)

    A shallow embedding of
      - [daily-plivo/inbound-call/plivo_handlers.py]  (module [PlivoHandlers]),
      - [daily-plivo/inbound-call/server.py]          (module [InboundServer]),
      - [daily-plivo/server.py]                       (module [OutboundServer]),
    followed by the properties of the correlation engine and of the two
    orchestration pipelines.

    Python values are modelled as follows.
      - a [str] is a [string]; a value that is a [str] or [None]
        (a form field, a query parameter, a JSON field) is an [option string];
      - the module-level [dict] [call_to_sip_mapping] is an insertion-ordered
        association list with unique keys (module [Dict]): iteration order is
        observable in the last step of the lookup chain;
      - an exception is a value of [exn]; a computation that may raise returns
        a [result];
      - the collaborators reached over the network or the operating system
        (room API, carrier API, process spawning, environment variables) are
        the fields of an [Env] record, and every call to one of them is
        recorded in the [history] of the [World]. *)

From Stdlib Require Import String Ascii List ZArith Bool Lia.
Import ListNotations.
Local Open Scope string_scope.
Local Open Scope list_scope.

(* ================================================================== *)
(** ** Python strings *)

Module PyStr.

(** [bool(s)] for a [str]. *)
Definition nonempty (s : string) : bool :=
  match s with
  | EmptyString => false
  | String _ _ => true
  end.

(** [bool(v)] for a value that is a [str] or [None]. *)
Definition truthy (v : option string) : bool :=
  match v with
  | Some s => nonempty s
  | None => false
  end.

(** [s.lstrip(c)] for a one-character argument: every leading occurrence of
    [c] is removed. *)
Fixpoint lstrip (c : ascii) (s : string) : string :=
  match s with
  | EmptyString => EmptyString
  | String a s' => if Ascii.eqb a c then lstrip c s' else s
  end.

Definition plus : ascii := "+"%char.

(** [s.lstrip('+')]. *)
Definition lstrip_plus (s : string) : string := lstrip plus s.

(** [a == b] on values that are a [str] or [None]. *)
Definition py_eq (a b : option string) : bool :=
  match a, b with
  | Some x, Some y => String.eqb x y
  | None, None => true
  | _, _ => false
  end.

(** [a or b]. *)
Definition py_or (a b : option string) : option string :=
  if truthy a then a else b.

(** [f"{v}"]: [None] is rendered as the four letters [None]. *)
Definition fmt (v : option string) : string :=
  match v with
  | Some s => s
  | None => "None"
  end.

(** [s] does not begin with ['+']. *)
Definition no_leading_plus (s : string) : bool :=
  match s with
  | String a _ => negb (Ascii.eqb a plus)
  | EmptyString => true
  end.

(** One character strings used to build literals. *)
Definition dquote : string := String (ascii_of_nat 34) EmptyString.
Definition newline : string := String (ascii_of_nat 10) EmptyString.

(** [needle in haystack]. *)
Fixpoint contains (needle haystack : string) : bool :=
  if String.prefix needle haystack then true
  else match haystack with
       | EmptyString => false
       | String _ rest => contains needle rest
       end.

End PyStr.

(* ================================================================== *)
(** ** Exceptions and results *)

(** The exceptions the three modules raise or catch.  [HTTPException]
    carries its status code and its [detail].  Where the source builds the
    detail as a literal prefix followed by [str(e)] of a caught exception
    (which the web framework renders), [HTTPExceptionFrom] keeps the prefix
    and the caught exception itself. *)
Inductive exn : Type :=
| AttributeError (what : string)
| OSError (what : string)
| HTTPException (status_code : Z) (detail : string)
| HTTPExceptionFrom (status_code : Z) (detail_prefix : string) (e : exn).

(** The status code of the response the framework sends for an exception
    that escapes a handler: the code of an [HTTPException], 500 otherwise. *)
Definition status_of (e : exn) : Z :=
  match e with
  | HTTPException c _ => c
  | HTTPExceptionFrom c _ _ => c
  | _ => 500%Z
  end.

Inductive result (A : Type) : Type :=
| Ok (a : A)
| Raise (e : exn).
Arguments Ok {A} a.
Arguments Raise {A} e.

Definition is_ok {A} (r : result A) : bool :=
  match r with Ok _ => true | Raise _ => false end.

(** [try: body  except Exception as e: handler(e)]. *)
Definition try_except {A} (body : result A) (handler : exn -> result A) : result A :=
  match body with
  | Ok a => Ok a
  | Raise e => handler e
  end.

Definition rbind {A B} (r : result A) (k : A -> result B) : result B :=
  match r with
  | Ok a => k a
  | Raise e => Raise e
  end.

(* ================================================================== *)
(** ** Insertion-ordered dictionaries with string keys *)

Module Dict.
Section Dict.
Context {V : Type}.

Definition t : Type := list (string * V).

Definition empty : t := [].

(** [d.get(k)]. *)
Fixpoint get (d : t) (k : string) : option V :=
  match d with
  | [] => None
  | (k', v) :: d' => if String.eqb k k' then Some v else get d' k
  end.

(** [k in d]. *)
Definition mem (d : t) (k : string) : bool :=
  match get d k with Some _ => true | None => false end.

(** [d[k] = v]: an existing key keeps its position, a new key goes last. *)
Fixpoint set (d : t) (k : string) (v : V) : t :=
  match d with
  | [] => [(k, v)]
  | (k', v') :: d' =>
      if String.eqb k k' then (k, v) :: d' else (k', v') :: set d' k v
  end.

(** [del d[k]] (for a key that is present); the other entries keep their
    order. *)
Fixpoint del (d : t) (k : string) : t :=
  match d with
  | [] => []
  | (k', v) :: d' => if String.eqb k k' then d' else (k', v) :: del d' k
  end.

(** [d.items()], [d.keys()], [d.values()]. *)
Definition items (d : t) : list (string * V) := d.
Definition keys (d : t) : list string := map fst d.
Definition values (d : t) : list V := map snd d.

(** Keys are unique. *)
Definition wf (d : t) : Prop := NoDup (keys d).

End Dict.
Arguments t V : clear implicits.
End Dict.

(* ================================================================== *)
(** ** HTTP requests and responses *)

(** What the handlers read from a request: [await request.form()] and
    [await request.json()] may raise; the parsed form, the query parameters
    and the JSON object are read only through [.get(name)], which is how they
    are represented. *)
Record Request : Type := mkRequest {
  form : result (string -> option string);
  query_params : string -> option string;
  json : result (string -> option string)
}.

(** [.get] view of a list of fields with distinct names. *)
Fixpoint fields (l : list (string * string)) (name : string) : option string :=
  match l with
  | [] => None
  | (n, v) :: l' => if String.eqb name n then Some v else fields l' name
  end.

Inductive Response : Type :=
| PlainTextResponse (content : string) (media_type : string)
| JSONResponse (body : list (string * string)).

Definition application_xml : string := "application/xml".

(* ================================================================== *)
(** ** plivo_handlers.py *)

Module PlivoHandlers.
Import PyStr.

(** The value stored under a key: [{"sip_uri": ..., "phone_number": ...}].
    [phone_number] is whatever the caller of [store_call_mapping] passed,
    which for the inbound flow is the form field [From], a [str] or
    [None]. *)
Record CallRecord : Type := mkCallRecord {
  sip_uri : string;
  phone_number : option string
}.

(** The type of the module-level [call_to_sip_mapping]. *)
Definition Mapping : Type := Dict.t CallRecord.

(** [store_call_mapping(call_id, sip_uri, phone_number)], on the mapping
    passed explicitly. *)
Definition store_call_mapping (call_id : string) (sip : string)
    (phone : option string) (call_to_sip_mapping : Mapping) : Mapping :=
  Dict.set call_to_sip_mapping call_id (mkCallRecord sip phone).

(** [get_call_mapping(call_uuid)]: [call_to_sip_mapping.get(call_uuid)].
    Keys are strings, so a [None] argument finds nothing. *)
Definition get_call_mapping (call_to_sip_mapping : Mapping)
    (call_uuid : option string) : option CallRecord :=
  match call_uuid with
  | Some k => Dict.get call_to_sip_mapping k
  | None => None
  end.

(** [not mapping]: a stored value is a two-key dict, hence truthy. *)
Definition missing (mapping : option CallRecord) : bool :=
  match mapping with Some _ => false | None => true end.

(** The condition of line 96,
    [stored_phone == to_number or stored_phone == to_number.lstrip('+')
     or stored_phone.lstrip('+') == to_number],
    with Python's left-to-right short-circuit evaluation; [.lstrip] on
    [None] raises [AttributeError]. *)
Definition phone_matches (stored_phone to_number : option string) : result bool :=
  if py_eq stored_phone to_number then Ok true
  else
    match to_number with
    | None => Raise (AttributeError "lstrip")
    | Some t =>
        if py_eq stored_phone (Some (lstrip_plus t)) then Ok true
        else
          match stored_phone with
          | None => Raise (AttributeError "lstrip")
          | Some s => Ok (String.eqb (lstrip_plus s) t)
          end
    end.

(** The loop of lines 93-99 over [call_to_sip_mapping.items()], leaving at
    the first match. *)
Fixpoint search_values (items : list (string * CallRecord))
    (to_number : option string) : result (option CallRecord) :=
  match items with
  | [] => Ok None
  | (key, value) :: rest =>
      let stored_phone := phone_number value in
      match phone_matches stored_phone to_number with
      | Raise e => Raise e
      | Ok true => Ok (Some value)
      | Ok false => search_values rest to_number
      end
  end.

(** Lines 67-99 of [plivo_answer_handler]: the successive assignments to the
    local variable [mapping]. *)
Definition resolve (call_to_sip_mapping : Mapping)
    (call_id call_uuid to_number : option string) : result (option CallRecord) :=
  let mapping : option CallRecord := None in
  let mapping :=
    if truthy call_id then get_call_mapping call_to_sip_mapping call_id
    else mapping in
  let mapping :=
    if missing mapping && truthy call_uuid
    then get_call_mapping call_to_sip_mapping call_uuid
    else mapping in
  let mapping :=
    if missing mapping && truthy to_number then
      let mapping := get_call_mapping call_to_sip_mapping to_number in
      if missing mapping then
        let to_no_plus := option_map lstrip_plus to_number in
        get_call_mapping call_to_sip_mapping to_no_plus
      else mapping
    else mapping in
  if missing mapping
  then search_values (Dict.items call_to_sip_mapping) to_number
  else Ok mapping.

Definition xml_declaration : string :=
  "<?xml version=" ++ dquote ++ "1.0" ++ dquote
  ++ " encoding=" ++ dquote ++ "UTF-8" ++ dquote ++ "?>".

(** A terminal document: a spoken message followed by a hangup. *)
Definition speak_hangup_xml (message : string) : string :=
  xml_declaration ++ newline
  ++ "<Response>" ++ newline
  ++ "    <Speak>" ++ message ++ "</Speak>" ++ newline
  ++ "    <Hangup/>" ++ newline
  ++ "</Response>".

(** [error_xml] of lines 106-110 and 132-136. *)
Definition error_xml : string :=
  speak_hangup_xml "Sorry, there was an error connecting your call.".

(** The f-string of lines 118-123 (and of [create_xml_with_timeout]). *)
Definition create_xml_with_timeout (sip : string) (from_number : string)
    (timeout : string) : string :=
  xml_declaration ++ newline
  ++ "<Response>" ++ newline
  ++ "    <Dial callerId=" ++ dquote ++ from_number ++ dquote
  ++ " timeout=" ++ dquote ++ timeout ++ dquote ++ ">" ++ newline
  ++ "        <User>" ++ sip ++ "</User>" ++ newline
  ++ "    </Dial>" ++ newline
  ++ "</Response>".

Definition dial_xml (from_number : option string) (sip : string) : string :=
  create_xml_with_timeout sip (fmt from_number) "30".

(** The body of the [try] block of [plivo_answer_handler]. *)
Definition plivo_answer_try (request : Request)
    (call_to_sip_mapping : Mapping) : result Response :=
  rbind (form request) (fun form_data =>
    let call_uuid := form_data "CallUUID" in
    let from_number := form_data "From" in
    let to_number := form_data "To" in
    let call_id := query_params request "call_id" in
    rbind (resolve call_to_sip_mapping call_id call_uuid to_number)
      (fun mapping =>
         match mapping with
         | None => Ok (PlainTextResponse error_xml application_xml)
         | Some record =>
             let xml_response := dial_xml from_number (sip_uri record) in
             Ok (PlainTextResponse xml_response application_xml)
         end)).

(** [plivo_answer_handler(request)]. *)
Definition plivo_answer_handler (request : Request)
    (call_to_sip_mapping : Mapping) : result Response :=
  try_except (plivo_answer_try request call_to_sip_mapping)
    (fun e => Ok (PlainTextResponse error_xml application_xml)).

(** [plivo_hangup_handler(request)]: the response (or the exception of
    [request.form()], which is not caught here) and the mapping
    afterwards. *)
Definition plivo_hangup_handler (request : Request)
    (call_to_sip_mapping : Mapping) : result Response * Mapping :=
  match form request with
  | Raise e => (Raise e, call_to_sip_mapping)
  | Ok form_data =>
      let call_uuid := form_data "CallUUID" in
      let call_to_sip_mapping :=
        match call_uuid with
        | Some k =>
            if Dict.mem call_to_sip_mapping k
            then Dict.del call_to_sip_mapping k
            else call_to_sip_mapping
        | None => call_to_sip_mapping
        end in
      (Ok (JSONResponse [("status", "received")]), call_to_sip_mapping)
  end.

(** [plivo_fallback_handler(request)]. *)
Definition plivo_fallback_handler (request : Request)
    (call_to_sip_mapping : Mapping) : result Response :=
  rbind (form request) (fun form_data =>
    Ok (PlainTextResponse
          (speak_hangup_xml
             "We're sorry, but we're unable to connect your call at this time. Please try again later.")
          application_xml)).

End PlivoHandlers.

(* ================================================================== *)
(** ** The process state and the collaborators of the two servers *)

(** A room as returned by the room API: [room_response["url"]] and
    [room_response["name"]]. *)
Record Room : Type := mkRoom {
  url : string;
  name : string
}.

(** What [create_daily_token] returns: [result.get("token")] (a [str] or
    [None]) on status 200, the dict [{"error": ...}] otherwise. *)
Inductive TokenResult : Type :=
| Token (token : option string)
| TokenError (error : string).

(** The object returned by [plivo_client.calls.create].  For each of the
    attributes [request_uuid], [call_uuid], [message_uuid]: [None] when
    [hasattr] is false, [Some v] with the attribute's value otherwise.  A
    response with none of them may still be a [dict], read with [.get]. *)
Inductive PlivoResponse : Type :=
| ResponseObject (request_uuid call_uuid message_uuid : option (option string))
| ResponseDict (get : string -> option string).

(** A started worker process. *)
Record Proc : Type := mkProc {
  pid : nat;
  args : list string
}.

(** Calls that leave the server process, and writes to the mapping, in the
    order they happen. *)
Inductive Event : Type :=
| EvCreateRoom
| EvCreateToken (room_name : string)
| EvGetSipUri (room_name : string)
| EvPopen (args : list string)
| EvSleep (seconds : nat)
| EvPlivoCreate (from_ to_ answer_url hangup_url : string)
| EvPlivoReturned
| EvStore (key : string).

(** The collaborators.  Each field is the outcome the collaborator gives
    when it is called. *)
Record Env : Type := mkEnv {
  create_daily_room : result (option Room);
  create_daily_token : string -> result TokenResult;
  get_daily_sip_uri : string -> result (option string);
  bot_file_exists : bool;
  open_log_file : string -> result unit;
  popen : list string -> result nat;
  getenv : string -> option string;
  plivo_calls_create : string -> string -> result PlivoResponse;
  SERVER_URL : string
}.

(** The module-level state of a server process. *)
Record World : Type := mkWorld {
  call_to_sip_mapping : PlivoHandlers.Mapping;
  bot_procs : list Proc;
  history : list Event
}.

(** Handlers: state passing, with exceptions; the state survives a raise. *)
Definition M (A : Type) : Type := World -> result A * World.

Definition ret {A} (a : A) : M A := fun w => (Ok a, w).

Definition raise {A} (e : exn) : M A := fun w => (Raise e, w).

Definition bind {A B} (m : M A) (k : A -> M B) : M B :=
  fun w =>
    match m w with
    | (Ok a, w') => k a w'
    | (Raise e, w') => (Raise e, w')
    end.

Declare Scope py_scope.
Delimit Scope py_scope with py.
Notation "x <- m ;; k" := (bind m (fun x => k))
  (at level 61, m at next level, right associativity) : py_scope.
Notation "m ;;; k" := (bind m (fun _ => k))
  (at level 61, right associativity) : py_scope.
Local Open Scope py_scope.

Definition lift {A} (r : result A) : M A := fun w => (r, w).

(** [try: body  except Exception as e: handler(e)] on handlers. *)
Definition try_exceptM {A} (body : M A) (handler : exn -> M A) : M A :=
  fun w =>
    match body w with
    | (Ok a, w') => (Ok a, w')
    | (Raise e, w') => handler e w'
    end.

Definition log (ev : Event) : M unit :=
  fun w => (Ok tt, mkWorld (call_to_sip_mapping w) (bot_procs w) (history w ++ [ev])).

(** [if not v: raise e], giving the string otherwise. *)
Definition require (v : option string) (e : exn) : M string :=
  match v with
  | Some s => if PyStr.nonempty s then ret s else raise e
  | None => raise e
  end.

(** [store_call_mapping(...)] as called from a handler. *)
Definition store_call_mapping (call_id sip : string) (phone : option string) : M unit :=
  fun w =>
    (Ok tt,
     mkWorld (PlivoHandlers.store_call_mapping call_id sip phone (call_to_sip_mapping w))
             (bot_procs w)
             (history w ++ [EvStore call_id])).

(** [bot_procs.append(proc)]. *)
Definition bot_procs_append (proc : Proc) : M unit :=
  fun w => (Ok tt, mkWorld (call_to_sip_mapping w) (bot_procs w ++ [proc]) (history w)).

Section Collaborators.
Variable env : Env.

Definition call_create_daily_room : M (option Room) :=
  log EvCreateRoom ;;; lift (create_daily_room env).

Definition call_create_daily_token (room_name : string) : M TokenResult :=
  log (EvCreateToken room_name) ;;; lift (create_daily_token env room_name).

Definition call_get_daily_sip_uri (room_name : string) : M (option string) :=
  log (EvGetSipUri room_name) ;;; lift (get_daily_sip_uri env room_name).

(** [subprocess.Popen([...], ...)]: recorded when the process has started. *)
Definition call_popen (argv : list string) : M Proc :=
  p <- lift (popen env argv) ;;
  log (EvPopen argv) ;;;
  ret (mkProc p argv).

(** [await asyncio.sleep(seconds)]. *)
Definition sleep (seconds : nat) : M unit := log (EvSleep seconds).

(** [plivo_client.calls.create(from_=..., to_=..., answer_url=..., ...)]. *)
Definition call_plivo_create (from_ to_ : string) : M PlivoResponse :=
  log (EvPlivoCreate from_ to_ (SERVER_URL env ++ "/plivo-answer")
                     (SERVER_URL env ++ "/plivo-hangup")) ;;;
  response <- lift (plivo_calls_create env from_ to_) ;;
  log EvPlivoReturned ;;;
  ret response.

End Collaborators.

(** The arguments handed to the worker. *)
Definition bot_argv (room_url token number sip : string) : list string :=
  ["-u"; room_url; "-t"; token; "-n"; number; "-s"; sip].

(** [POST /store-call-mapping]; the same in both servers. *)
Definition store_call_mapping_endpoint (request : Request) : M Response :=
  try_exceptM
    (data <- lift (json request) ;;
     let call_id := data "call_id" in
     let sip_uri := data "sip_uri" in
     let phone_number := data "phone_number" in
     match call_id, sip_uri with
     | Some call_id', Some sip_uri' =>
         if forallb PyStr.truthy [call_id; sip_uri; phone_number] then
           store_call_mapping call_id' sip_uri' phone_number ;;;
           ret (JSONResponse [("status", "success"); ("call_id", call_id')])
         else raise (HTTPException 400 "Missing required fields")
     | _, _ => raise (HTTPException 400 "Missing required fields")
     end)
    (fun e => raise (HTTPExceptionFrom 500 EmptyString e)).

(** The three webhook routes, which delegate to [plivo_handlers]. *)
Definition handle_plivo_answer (request : Request) : M Response :=
  fun w => (PlivoHandlers.plivo_answer_handler request (call_to_sip_mapping w), w).

Definition handle_plivo_hangup (request : Request) : M Response :=
  fun w =>
    let '(r, m) := PlivoHandlers.plivo_hangup_handler request (call_to_sip_mapping w) in
    (r, mkWorld m (bot_procs w) (history w)).

Definition handle_plivo_fallback (request : Request) : M Response :=
  fun w => (PlivoHandlers.plivo_fallback_handler request (call_to_sip_mapping w), w).

(* ================================================================== *)
(** ** inbound-call/server.py *)

Module InboundServer.
Import PyStr.

Definition xml (message : string) : Response :=
  PlainTextResponse (PlivoHandlers.speak_hangup_xml message) application_xml.

(** [if not v: return early], continuing with the string otherwise. *)
Definition or_return (v : option string) (early : Response)
    (k : string -> M Response) : M Response :=
  match v with
  | Some s => if nonempty s then k s else ret early
  | None => ret early
  end.

Section Handlers.
Variable env : Env.

(** Lines 188-226: start the worker; any exception is logged and dropped. *)
Definition start_bot (room_url room_name token : string)
    (from_number : option string) (sip : string) : M unit :=
  try_exceptM
    (if negb (bot_file_exists env) then ret tt
     else
       lift (open_log_file env room_name) ;;;
       proc <- call_popen env
                 (bot_argv room_url token (fmt (py_or from_number (Some "unknown"))) sip) ;;
       bot_procs_append proc ;;;
       sleep 2)
    (fun e => ret tt).

(** The body of the [try] block of [handle_inbound_call]. *)
Definition handle_inbound_call_try (request : Request) : M Response :=
  form_data <- lift (form request) ;;
  let call_uuid := form_data "CallUUID" in
  let from_number := form_data "From" in
  let to_number := form_data "To" in
  or_return call_uuid (xml "Sorry, there was an error processing your call.")
    (fun call_uuid =>
  room_response <- call_create_daily_room env ;;
  match room_response with
  | None =>
      ret (xml "Sorry, we're unable to connect your call at this time. Please try again later.")
  | Some room_response =>
  let room_url := url room_response in
  let room_name := name room_response in
  token_result <- call_create_daily_token env room_name ;;
  match token_result with
  | TokenError _ => ret (xml "Sorry, there was an error setting up your call.")
  | Token token_result =>
  or_return token_result (xml "Sorry, there was an error setting up your call.")
    (fun token =>
  sip_uri <- call_get_daily_sip_uri env room_name ;;
  or_return sip_uri
    (xml "Sorry, we're unable to connect your call. Please try again later.")
    (fun sip_uri =>
  store_call_mapping call_uuid sip_uri from_number ;;;
  (match from_number with
   | Some number =>
       if nonempty number then
         store_call_mapping number sip_uri from_number ;;;
         let phone_no_plus := lstrip_plus number in
         store_call_mapping phone_no_plus sip_uri from_number
       else ret tt
   | None => ret tt
   end) ;;;
  start_bot room_url room_name token from_number sip_uri ;;;
  let caller_id := py_or from_number to_number in
  let xml_response := PlivoHandlers.dial_xml caller_id sip_uri in
  ret (PlainTextResponse xml_response application_xml)))
  end
  end).

(** [handle_inbound_call(request)]. *)
Definition handle_inbound_call (request : Request) : M Response :=
  try_exceptM (handle_inbound_call_try request)
    (fun e => ret (xml "Sorry, there was an error processing your call. Please try again later.")).

End Handlers.
End InboundServer.

(* ================================================================== *)
(** ** server.py (outbound) *)

Module OutboundServer.
Import PyStr.

(** Lines 224-233: the first of the three attributes the response has, or
    the first truthy of the three dict entries. *)
Definition response_call_uuid (response : PlivoResponse) : option string :=
  match response with
  | ResponseObject (Some v) _ _ => v
  | ResponseObject None (Some v) _ => v
  | ResponseObject None None (Some v) => v
  | ResponseObject None None None => None
  | ResponseDict get =>
      py_or (py_or (get "request_uuid") (get "call_uuid")) (get "message_uuid")
  end.

Section Handlers.
Variable env : Env.

(** Lines 153-197: start the worker first, then wait five seconds; any
    exception becomes a 500. *)
Definition start_bot (room_url room_name token phone_number sip : string) : M unit :=
  try_exceptM
    (if negb (bot_file_exists env)
     then raise (HTTPException 500 "Bot file not found")
     else
       lift (open_log_file env room_name) ;;;
       proc <- call_popen env (bot_argv room_url token phone_number sip) ;;
       bot_procs_append proc ;;;
       sleep 5)
    (fun e => raise (HTTPExceptionFrom 500 "Failed to start bot process: " e)).

(** Lines 210-267: place the call, then store the mapping. *)
Definition place_call (from_number phone_number sip : string) : M unit :=
  try_exceptM
    (response <- call_plivo_create env from_number phone_number ;;
     let call_uuid := response_call_uuid response in
     store_call_mapping phone_number sip (Some phone_number) ;;;
     let phone_no_plus := lstrip_plus phone_number in
     store_call_mapping phone_no_plus sip (Some phone_number) ;;;
     match call_uuid with
     | Some uuid =>
         if nonempty uuid
         then store_call_mapping uuid sip (Some phone_number)
         else ret tt
     | None => ret tt
     end)
    (fun e => raise (HTTPExceptionFrom 500 "Failed to initiate Plivo call: " e)).

(** The body of the outer [try] block of [handle_outbound_call]. *)
Definition handle_outbound_call_try (request : Request) : M Response :=
  data <- lift (json request) ;;
  phone_number <- require (data "phone_number")
    (HTTPException 400 "Missing required parameter: phone_number") ;;
  room_response <- call_create_daily_room env ;;
  match room_response with
  | None => raise (HTTPException 500 "Failed to create Daily room")
  | Some room_response =>
  let room_url := url room_response in
  let room_name := name room_response in
  token_result <- call_create_daily_token env room_name ;;
  match token_result with
  | TokenError error =>
      raise (HTTPException 500 ("Failed to create Daily token: " ++ error))
  | Token token_result =>
  token <- require token_result
    (HTTPException 500 "Failed to create Daily token: Unknown error") ;;
  sip_uri <- call_get_daily_sip_uri env room_name ;;
  sip_uri <- require sip_uri (HTTPException 500 "Failed to get Daily SIP URI") ;;
  start_bot room_url room_name token phone_number sip_uri ;;;
  let plivo_auth_id := getenv env "PLIVO_AUTH_ID" in
  let plivo_auth_token := getenv env "PLIVO_AUTH_TOKEN" in
  let from_number := getenv env "PLIVO_PHONE_NUMBER" in
  if negb (forallb truthy [plivo_auth_id; plivo_auth_token; from_number])
  then raise (HTTPException 500 "Plivo credentials not configured")
  else
  place_call (fmt from_number) phone_number sip_uri ;;;
  ret (JSONResponse
         [("status", "success");
          ("message", ("Outbound call initiated to " ++ phone_number)%string);
          ("room_url", room_url);
          ("room_name", room_name)])
  end
  end.

(** [handle_outbound_call(request)]. *)
Definition handle_outbound_call (request : Request) : M Response :=
  try_exceptM (handle_outbound_call_try request)
    (fun e => raise (HTTPExceptionFrom 500 "Error processing outbound call: " e)).

End Handlers.
End OutboundServer.

(* ================================================================== *)
(** ** The lookup chain as the specification words it *)

Module IdentityMapSpec.
Import PyStr PlivoHandlers.

(** An absent identifier is the empty string. *)
Definition ident (v : option string) : string :=
  match v with
  | Some s => s
  | None => EmptyString
  end.

(** Exact-match lookup. *)
Definition get (m : Mapping) (key : string) : option CallRecord := Dict.get m key.

(** Step 1: exact match on the call ID, if non-empty. *)
Definition step1 (m : Mapping) (callID : string) : option CallRecord :=
  if nonempty callID then get m callID else None.

(** Step 2: exact match on the call UUID, if non-empty. *)
Definition step2 (m : Mapping) (callUUID : string) : option CallRecord :=
  if nonempty callUUID then get m callUUID else None.

(** Step 3: exact match on the number as given, if non-empty. *)
Definition step3 (m : Mapping) (toNumber : string) : option CallRecord :=
  if nonempty toNumber then get m toNumber else None.

(** Step 4, as the specification states it: exact match on the number with
    its leading ['+'] stripped, tried whenever step 3 found nothing. *)
Definition step4 (m : Mapping) (toNumber : string) : option CallRecord :=
  get m (lstrip_plus toNumber).

(** Step 4 with the guard of step 3: tried only for a non-empty number. *)
Definition step4_guarded (m : Mapping) (toNumber : string) : option CallRecord :=
  if nonempty toNumber then get m (lstrip_plus toNumber) else None.

(** The two numbers are equal, as they are or after the ['+'] prefix is
    stripped from the side that has it. *)
Definition same_number (stored toNumber : string) : bool :=
  String.eqb stored toNumber
  || String.eqb stored (lstrip_plus toNumber)
  || String.eqb (lstrip_plus stored) toNumber.

Definition record_matches (toNumber : string) (r : CallRecord) : bool :=
  match phone_number r with
  | Some stored => same_number stored toNumber
  | None => false
  end.

(** Step 5: the first stored record, in scan order, whose number matches. *)
Definition step5 (m : Mapping) (toNumber : string) : option CallRecord :=
  find (record_matches toNumber) (Dict.values m).

(** The first hit of a list of attempts. *)
Fixpoint first_hit (attempts : list (option CallRecord)) : option CallRecord :=
  match attempts with
  | [] => None
  | Some r :: _ => Some r
  | None :: rest => first_hit rest
  end.

(** The chain as the specification states it. *)
Definition resolve_as_stated (m : Mapping) (callID callUUID toNumber : string)
    : option CallRecord :=
  first_hit [step1 m callID; step2 m callUUID; step3 m toNumber;
             step4 m toNumber; step5 m toNumber].

(** The chain in which steps 3 and 4 are both tried only for a non-empty
    number. *)
Definition resolve (m : Mapping) (callID callUUID toNumber : string)
    : option CallRecord :=
  first_hit [step1 m callID; step2 m callUUID; step3 m toNumber;
             step4_guarded m toNumber; step5 m toNumber].

(** Every stored phone number is a string (the specification's
    [CallRecord]). *)
Definition phones_are_strings (m : Mapping) : bool :=
  forallb (fun kv => match phone_number (snd kv) with Some _ => true | None => false end) m.

(** The entry [kv] is stored for the number [toNumber]: under the number
    itself, under the number without its ['+'], or with a stored number
    that matches. *)
Definition stored_for (toNumber : string) (kv : string * CallRecord) : bool :=
  String.eqb toNumber (fst kv)
  || String.eqb (lstrip_plus toNumber) (fst kv)
  || record_matches toNumber (snd kv).

(** [r] is the only record stored for [toNumber]. *)
Definition sole_record_for (m : Mapping) (toNumber : string) (r : CallRecord) : Prop :=
  forall kv, In kv m -> stored_for toNumber kv = true -> snd kv = r.

(** The lookup finds the record [r]. *)
Definition finds (m : Mapping) (call_id call_uuid : option string)
    (toNumber : string) (r : CallRecord) : Prop :=
  PlivoHandlers.resolve m call_id call_uuid (Some toNumber) = Ok (Some r).

(** The lookup returns some record that is stored in the mapping. *)
Definition hits (m : Mapping) (call_id call_uuid : option string)
    (toNumber : string) : Prop :=
  exists r',
    PlivoHandlers.resolve m call_id call_uuid (Some toNumber) = Ok (Some r')
    /\ In r' (Dict.values m).

(** The lookup is decided by the scan when nothing is stored under the
    number itself. *)
Definition decided_by_scan (m : Mapping) (call_id call_uuid : option string)
    (toNumber : string) : Prop :=
  Dict.get m toNumber = None ->
  Dict.get m (lstrip_plus toNumber) = None ->
  PlivoHandlers.resolve m call_id call_uuid (Some toNumber)
  = Ok (step5 m toNumber).

(** A number with at most one leading ['+']. *)
Definition at_most_one_plus (s : string) : bool :=
  match s with
  | String a rest => if Ascii.eqb a plus then no_leading_plus rest else true
  | EmptyString => true
  end.

End IdentityMapSpec.

(** The signaling documents of the specification, and their markup. *)
Inductive SignalingDocument : Type :=
| Dial (callerId : string) (timeout : string) (user : string)
| SpeakHangup (message : string).

Definition render (d : SignalingDocument) : string :=
  match d with
  | Dial callerId timeout user =>
      PlivoHandlers.create_xml_with_timeout user callerId timeout
  | SpeakHangup message => PlivoHandlers.speak_hangup_xml message
  end.

(** The fixed terminal document of the answer webhook. *)
Definition error_connecting : SignalingDocument :=
  SpeakHangup "Sorry, there was an error connecting your call.".

(** [a] occurs in [l], and [b] occurs later. *)
Definition before {A} (a b : A) (l : list A) : Prop :=
  exists l1 l2 l3, l = l1 ++ a :: l2 ++ b :: l3.

(** The keys a successful outbound run writes: the target number as given,
    the number without its ['+'], and the call identifier of the carrier's
    response when it has one. *)
Definition uuid_keys (call_uuid : option string) : list string :=
  match call_uuid with
  | Some uuid => if PyStr.nonempty uuid then [uuid] else []
  | None => []
  end.

Definition stored_keys (phone_number : string) (response : PlivoResponse) : list string :=
  phone_number :: PyStr.lstrip_plus phone_number
  :: uuid_keys (OutboundServer.response_call_uuid response).

(** The calls a successful outbound run makes before it writes. *)
Definition outbound_calls (env : Env) (room : Room) (token phone_number sip from_number : string)
    : list Event :=
  [EvCreateRoom; EvCreateToken (name room); EvGetSipUri (name room);
   EvPopen (bot_argv (url room) token phone_number sip);
   EvSleep 5;
   EvPlivoCreate from_number phone_number
     (SERVER_URL env ++ "/plivo-answer") (SERVER_URL env ++ "/plivo-hangup");
   EvPlivoReturned].

(** No event of [evs] is a write to the mapping. *)
Definition no_store (evs : list Event) : Prop :=
  forall key, ~ In (EvStore key) evs.

(** Every write to the mapping in [evs] comes after the carrier's
    place-call request has returned. *)
Definition stores_follow_place_call (evs : list Event) : Prop :=
  forall l1 key l2, evs = l1 ++ EvStore key :: l2 -> In EvPlivoReturned l1.

(* ================================================================== *)
(** ** Concrete states, requests and collaborators *)

Module Examples.
Import PlivoHandlers.

(** Two calls: one stored under its carrier UUID, one under a local ID. *)
Definition two_calls : Mapping :=
  [("u1", mkCallRecord "sip:a@daily" (Some "+15550001"));
   ("c9", mkCallRecord "sip:b@daily" (Some "15550002"))].

(** The record of the number-normalization scenario, under its number. *)
Definition plus_record : CallRecord :=
  mkCallRecord "sip:room@daily" (Some "+15551234567").

Definition stored_under_number : Mapping :=
  store_call_mapping "+15551234567" "sip:room@daily" (Some "+15551234567") Dict.empty.

(** A record stored under a carrier UUID, its number lacking the ['+']. *)
Definition bare_record : CallRecord :=
  mkCallRecord "sip:room@daily" (Some "15551234567").

Definition stored_under_uuid : Mapping :=
  store_call_mapping "u7" "sip:room@daily" (Some "15551234567") Dict.empty.

(** A record stored only under the key [abc]. *)
Definition stored_under_abc : Mapping :=
  store_call_mapping "abc" "sip:x@y" (Some "+1555000") Dict.empty.

Definition no_fields : string -> option string := fun _ => None.

(** A request with the given form fields and JSON fields. *)
Definition request_of (form_fields json_fields : list (string * string)) : Request :=
  mkRequest (Ok (fields form_fields)) no_fields (Ok (fields json_fields)).

(** The inbound notification of the end-to-end scenario. *)
Definition inbound_u1 : Request :=
  request_of [("CallUUID", "u1"); ("From", "+1555000"); ("To", "+1555999")] [].

(** The hangup notification for the same call. *)
Definition hangup_u1 : Request :=
  request_of [("CallUUID", "u1"); ("HangupCause", "NORMAL_CLEARING"); ("Duration", "12")] [].

(** Collaborators that all succeed: room [{url: "https://r/x", name: "x"}],
    token [tok], SIP URI [sip:x@y], a worker that starts, configured carrier
    credentials and a carrier response carrying [request_uuid]. *)
Definition all_succeed : Env :=
  mkEnv (Ok (Some (mkRoom "https://r/x" "x")))
        (fun _ => Ok (Token (Some "tok")))
        (fun _ => Ok (Some "sip:x@y"))
        true
        (fun _ => Ok tt)
        (fun _ => Ok 4242)
        (fields [("PLIVO_AUTH_ID", "id"); ("PLIVO_AUTH_TOKEN", "secret");
                 ("PLIVO_PHONE_NUMBER", "+15550100")])
        (fun _ _ => Ok (ResponseObject (Some (Some "req-1")) None None))
        "http://localhost:8000".

(** The same, except that the carrier refuses the call. *)
Definition carrier_fails : Env :=
  mkEnv (Ok (Some (mkRoom "https://r/x" "x")))
        (fun _ => Ok (Token (Some "tok")))
        (fun _ => Ok (Some "sip:x@y"))
        true
        (fun _ => Ok tt)
        (fun _ => Ok 4242)
        (fields [("PLIVO_AUTH_ID", "id"); ("PLIVO_AUTH_TOKEN", "secret");
                 ("PLIVO_PHONE_NUMBER", "+15550100")])
        (fun _ _ => Raise (OSError "connection refused"))
        "http://localhost:8000".

Definition empty_world : World := mkWorld Dict.empty [] [].

(** The record of the end-to-end scenario and the mapping that holds it
    under the call UUID and under both forms of the caller's number. *)
Definition record_u1 : CallRecord := mkCallRecord "sip:x@y" (Some "+1555000").

Definition after_inbound_u1 : Mapping :=
  [("u1", record_u1); ("+1555000", record_u1); ("1555000", record_u1)].


(** An outbound request for [+15551234567], and one without a number. *)
Definition outbound_ok : Request := request_of [] [("phone_number", "+15551234567")].
Definition outbound_no_number : Request := request_of [] [].

(** Requests to [/store-call-mapping]: complete, and lacking [sip_uri]. *)
Definition store_ok : Request :=
  request_of [] [("call_id", "c1"); ("sip_uri", "sip:x@y"); ("phone_number", "+1555000")].
Definition store_incomplete : Request :=
  request_of [] [("call_id", "c1"); ("phone_number", "+1555000")].

End Examples.

(* ================================================================== *)
(** ** get_daily_sip_uri (both servers) *)

Module RoomApi.
Import PyStr.

(** A decoded JSON value, as [await response.json()] returns it. *)
#[local] Set Warnings "-register-all".
Inductive JSON : Type :=
| JNull
| JBool (b : bool)
| JNumber (n : Z)
| JString (s : string)
| JArray (items : list JSON)
| JObject (members : list (string * JSON)).

(** What the function reads of the HTTP response: [response.status],
    [await response.json()] and [await response.text()]. *)
Record HttpResponse : Type := mkHttpResponse {
  status : Z;
  json_body : result JSON;
  text : result string
}.

(** [bool(v)]. *)
Definition truthy_json (v : JSON) : bool :=
  match v with
  | JNull => false
  | JBool b => b
  | JNumber n => negb (Z.eqb n 0)
  | JString s => nonempty s
  | JArray items => match items with [] => false | _ :: _ => true end
  | JObject members => match members with [] => false | _ :: _ => true end
  end.

Fixpoint member (members : list (string * JSON)) (key : string) : option JSON :=
  match members with
  | [] => None
  | (k, v) :: rest => if String.eqb key k then Some v else member rest key
  end.

(** [v.get(key, default)]: only a dict has [.get]. *)
Definition py_get (v : JSON) (key : string) (default : JSON) : result JSON :=
  match v with
  | JObject members =>
      Ok (match member members key with Some x => x | None => default end)
  | _ => Raise (AttributeError "get")
  end.

Section Format.
(** [str(v)] for a decoded value that is not a string (a number, a list,
    a dict, ...), as an f-string renders it. *)
Variable str : JSON -> string.

(** [f"{v}"]. *)
Definition format (v : JSON) : string :=
  match v with
  | JString s => s
  | _ => str v
  end.

(** [get_daily_sip_uri(room_name)], given the response of
    [GET {DAILY_API_URL}/rooms/{room_name}]. *)
Definition get_daily_sip_uri (room_name : string) (response : HttpResponse)
    : result (option string) :=
  if Z.eqb (status response) 200 then
    rbind (json_body response) (fun result =>
    rbind (py_get result "config" (JObject [])) (fun config =>
    rbind (py_get config "sip" (JObject [])) (fun sip_config =>
    rbind (py_get result "config" (JObject [])) (fun config =>
    rbind (py_get config "sip_uri" (JObject [])) (fun sip_uri_config =>
    rbind (py_get sip_uri_config "endpoint" JNull) (fun sip_endpoint =>
    if truthy_json sip_endpoint
    then Ok (Some ("sip:" ++ format sip_endpoint)%string)
    else Ok (Some ("sip:" ++ room_name ++ "@sip.daily.co")%string)))))))
  else
    rbind (text response) (fun error_text => Ok None).

End Format.

(** The body [{"config": {"sip_uri": {"endpoint": endpoint}}}]. *)
Definition room_with_endpoint (endpoint : JSON) : JSON :=
  JObject [("config", JObject [("sip_uri", JObject [("endpoint", endpoint)])])].

End RoomApi.

(* ================================================================== *)
(** ** Well-formed markup *)

(** A recogniser for the part of XML the signaling documents are written
    in: processing instructions (the XML declaration), elements with
    attributes in single or double quotes, empty-element tags and character
    data.  It checks that tags nest and match, that there is exactly one
    root element with only white space around it, that attributes are
    separated by white space and quoted, and that ['<'] and ['&'] occur
    neither in attribute values nor in character data.  References,
    comments, CDATA sections and document type declarations are outside
    this part and are refused, and attribute names are not compared with
    each other. *)
Module Xml.

Definition code (c : ascii) : nat := nat_of_ascii c.

Definition is_space (c : ascii) : bool :=
  Nat.eqb (code c) 32 || Nat.eqb (code c) 9 || Nat.eqb (code c) 10
  || Nat.eqb (code c) 13.

Definition is_letter (c : ascii) : bool :=
  (Nat.leb 65 (code c) && Nat.leb (code c) 90)
  || (Nat.leb 97 (code c) && Nat.leb (code c) 122).

Definition is_digit (c : ascii) : bool :=
  Nat.leb 48 (code c) && Nat.leb (code c) 57.

(** First character of a name: a letter, ['_'] or [':']. *)
Definition is_name_start (c : ascii) : bool :=
  is_letter c || Nat.eqb (code c) 95 || Nat.eqb (code c) 58.

(** Later characters of a name: also digits, ['-'] and ['.']. *)
Definition is_name_char (c : ascii) : bool :=
  is_name_start c || is_digit c || Nat.eqb (code c) 45 || Nat.eqb (code c) 46.

(** A character XML allows at all: tab, line feed, carriage return, or
    anything from the space upwards. *)
Definition is_char (c : ascii) : bool :=
  Nat.eqb (code c) 9 || Nat.eqb (code c) 10 || Nat.eqb (code c) 13
  || Nat.leb 32 (code c).

Definition lt : ascii := "<"%char.
Definition gt : ascii := ">"%char.
Definition amp : ascii := "&"%char.
Definition slash : ascii := "/"%char.
Definition question : ascii := "?"%char.
Definition equals : ascii := "="%char.
Definition double_quote : ascii := ascii_of_nat 34.
Definition single_quote : ascii := ascii_of_nat 39.

(** Where the recogniser is. *)
Inductive mode : Type :=
| Content
| AfterLt
| Instruction (question_seen : bool)
| OpenName (name : string)
| InTag (name : string) (spaced : bool)
| AttrName (tag : string)
| BeforeEquals (tag : string)
| BeforeValue (tag : string)
| AttrValue (tag : string) (quote : ascii)
| EmptyEnd (tag : string)
| CloseName (name : string)
| AfterCloseName (name : string).

(** The mode, the names of the elements that are open (innermost first),
    and whether the root element has been closed. *)
Record state : Type := mkState {
  current : mode;
  open_tags : list string;
  root_closed : bool
}.

Definition initial : state := mkState Content [] false.

Definition snoc (name : string) (c : ascii) : string :=
  (name ++ String c EmptyString)%string.

(** Closing the innermost element, which must bear the given name. *)
Definition close (s : state) (name : string) : option state :=
  match open_tags s with
  | [] => None
  | top :: rest =>
      if String.eqb name top
      then Some (mkState Content rest
                   (match rest with [] => true | _ :: _ => root_closed s end))
      else None
  end.

(** Opening an element. *)
Definition open (s : state) (name : string) : option state :=
  Some (mkState Content (name :: open_tags s) (root_closed s)).

(** One character. *)
Definition step (s : state) (c : ascii) : option state :=
  let go m := Some (mkState m (open_tags s) (root_closed s)) in
  match current s with
  | Content =>
      if Ascii.eqb c lt then go AfterLt
      else if Ascii.eqb c amp then None
      else if is_space c then go Content
      else match open_tags s with
           | [] => None
           | _ :: _ => if is_char c then go Content else None
           end
  | AfterLt =>
      if Ascii.eqb c question then go (Instruction false)
      else if Ascii.eqb c slash then go (CloseName EmptyString)
      else if is_name_start c then
        match open_tags s, root_closed s with
        | [], true => None
        | _, _ => go (OpenName (String c EmptyString))
        end
      else None
  | Instruction question_seen =>
      if Ascii.eqb c question then go (Instruction true)
      else if question_seen && Ascii.eqb c gt then go Content
      else if is_char c then go (Instruction false)
      else None
  | OpenName name =>
      if is_name_char c then go (OpenName (snoc name c))
      else if is_space c then go (InTag name true)
      else if Ascii.eqb c gt then open s name
      else if Ascii.eqb c slash then go (EmptyEnd name)
      else None
  | InTag name spaced =>
      if is_space c then go (InTag name true)
      else if Ascii.eqb c gt then open s name
      else if Ascii.eqb c slash then go (EmptyEnd name)
      else if spaced && is_name_start c then go (AttrName name)
      else None
  | AttrName tag =>
      if is_name_char c then go (AttrName tag)
      else if Ascii.eqb c equals then go (BeforeValue tag)
      else if is_space c then go (BeforeEquals tag)
      else None
  | BeforeEquals tag =>
      if is_space c then go (BeforeEquals tag)
      else if Ascii.eqb c equals then go (BeforeValue tag)
      else None
  | BeforeValue tag =>
      if is_space c then go (BeforeValue tag)
      else if Ascii.eqb c double_quote || Ascii.eqb c single_quote
      then go (AttrValue tag c)
      else None
  | AttrValue tag quote =>
      if Ascii.eqb c quote then go (InTag tag false)
      else if Ascii.eqb c lt || Ascii.eqb c amp then None
      else if is_char c then go (AttrValue tag quote)
      else None
  | EmptyEnd tag =>
      if Ascii.eqb c gt
      then Some (mkState Content (open_tags s)
                   (match open_tags s with [] => true | _ :: _ => root_closed s end))
      else None
  | CloseName name =>
      if is_name_char c then go (CloseName (snoc name c))
      else if is_space c then go (AfterCloseName name)
      else if Ascii.eqb c gt then close s name
      else None
  | AfterCloseName name =>
      if is_space c then go (AfterCloseName name)
      else if Ascii.eqb c gt then close s name
      else None
  end.

(** All the characters of a text, stopping at the first refusal. *)
Fixpoint run (s : option state) (text : string) : option state :=
  match text with
  | EmptyString => s
  | String c rest =>
      match s with
      | None => None
      | Some s' => run (step s' c) rest
      end
  end.

(** The text is a well-formed document: it is read to its end, and then
    the root element has been closed and nothing is open. *)
Definition well_formed (text : string) : bool :=
  match run (Some initial) text with
  | Some (mkState Content [] true) => true
  | _ => false
  end.



End Xml.

(* ================================================================== *)
(** ** Further states, requests and collaborators *)

(** The keys a successful inbound run writes: the call UUID, then the
    caller's number as given and without its ['+'] when there is one. *)
Definition inbound_keys (call_uuid : string) (from_number : option string)
    : list string :=
  call_uuid
  :: match from_number with
     | Some number =>
         if PyStr.nonempty number then [number; PyStr.lstrip_plus number] else []
     | None => []
     end.

(** Writing one record under each of a list of keys, in order. *)
Definition store_under (keys : list string) (sip : string) (phone : option string)
    (m : PlivoHandlers.Mapping) : PlivoHandlers.Mapping :=
  fold_left (fun m key => PlivoHandlers.store_call_mapping key sip phone m) keys m.

(** The response is one of the terminal documents. *)
Definition is_terminal (r : Response) : Prop :=
  exists message, r = PlainTextResponse (render (SpeakHangup message)) application_xml.

(** [l] extends [l0] at its end. *)
Definition extends {A} (l l0 : list A) : Prop := exists more, l = l0 ++ more.

Module MoreExamples.
Import PlivoHandlers.

(** A call stored without a number (an inbound call that had no [From]),
    followed by a call whose number is known. *)
Definition numberless_first : Mapping :=
  [("u0", mkCallRecord "sip:old@daily" None);
   ("c9", mkCallRecord "sip:b@daily" (Some "15550002"))].

(** An answer webhook that carries only [To]. *)
Definition answer_to_15550002 : Request :=
  Examples.request_of [("From", "+15550100"); ("To", "+15550002")] [].

(** An answer webhook that carries no [To]. *)
Definition answer_without_to : Request :=
  Examples.request_of [("CallUUID", "zz"); ("From", "+15550100")] [].

(** An answer webhook that passes the local call ID in the query. *)
Definition answer_with_call_id : Request :=
  mkRequest (Ok (fields [("CallUUID", "zz"); ("From", "+15550100"); ("To", "+15550002")]))
            (fields [("call_id", "c1")])
            (Ok Examples.no_fields).

(** The answer webhook of the carrier for the call [u1]. *)
Definition answer_u1 : Request :=
  Examples.request_of [("CallUUID", "u1"); ("From", "+1555000"); ("To", "+1555999")] [].

(** The answer webhook for the outbound call to [+15551234567]. *)
Definition answer_outbound : Request :=
  Examples.request_of
    [("CallUUID", "carrier-7"); ("From", "+15550100"); ("To", "15551234567")] [].

(** An inbound notification without [From]. *)
Definition inbound_without_from : Request :=
  Examples.request_of [("CallUUID", "u2"); ("To", "+1555999")] [].

(** Collaborators where everything succeeds but the carrier credentials
    are not configured. *)
Definition no_credentials : Env :=
  mkEnv (Ok (Some (mkRoom "https://r/x" "x")))
        (fun _ => Ok (Token (Some "tok")))
        (fun _ => Ok (Some "sip:x@y"))
        true
        (fun _ => Ok tt)
        (fun _ => Ok 4242)
        (fields [("PLIVO_AUTH_ID", "id")])
        (fun _ _ => Ok (ResponseObject (Some (Some "req-1")) None None))
        "http://localhost:8000".

(** Collaborators whose room API is down. *)
Definition room_api_down : Env :=
  mkEnv (Ok None)
        (fun _ => Ok (Token (Some "tok")))
        (fun _ => Ok (Some "sip:x@y"))
        true
        (fun _ => Ok tt)
        (fun _ => Ok 4242)
        (fields [])
        (fun _ _ => Raise (OSError "unreachable"))
        "http://localhost:8000".

(** A request whose body is not JSON. *)
Definition not_json : Request :=
  mkRequest (Ok Examples.no_fields) Examples.no_fields (Raise (OSError "JSONDecodeError")).

(** Two inbound calls whose [From] consists of ['+'] signs only: [uA] from
    ["+"], then [uB] from ["++"].  Both write the empty key. *)
Definition plus_only_calls : Mapping :=
  store_call_mapping EmptyString "sip:b@daily" (Some "++")
    (store_call_mapping "++" "sip:b@daily" (Some "++")
       (store_call_mapping "uB" "sip:b@daily" (Some "++")
          (store_call_mapping EmptyString "sip:a@daily" (Some "+")
             (store_call_mapping "+" "sip:a@daily" (Some "+")
                (store_call_mapping "uA" "sip:a@daily" (Some "+") Dict.empty))))).

(** Two calls to one number: the first stored under ["+15551234567"], the
    second under ["15551234567"]. *)
Definition first_call : CallRecord :=
  mkCallRecord "sip:a@daily" (Some "+15551234567").

Definition second_call : CallRecord :=
  mkCallRecord "sip:b@daily" (Some "15551234567").

Definition same_number_twice : Mapping :=
  store_call_mapping "15551234567" "sip:b@daily" (Some "15551234567")
    (store_call_mapping "+15551234567" "sip:a@daily" (Some "+15551234567")
       Dict.empty).

(** A call stored without a number, then the record of [Examples.bare_record]
    under its carrier UUID. *)
Definition numberless_then_bare : Mapping :=
  store_call_mapping "u7" "sip:room@daily" (Some "15551234567")
    (store_call_mapping "u0" "sip:old@daily" None Dict.empty).

(** A caller identity that contains a double quote, between [a] and [b]. *)
Definition quoted_caller : string := "a" ++ PyStr.dquote ++ "b".

(** The answer webhook for the call [u1] with that caller identity. *)
Definition answer_quoted_caller : Request :=
  Examples.request_of
    [("CallUUID", "u1"); ("From", quoted_caller); ("To", "+1555999")] [].

(** The room body of a live room: the endpoint among other settings. *)
Definition room_200_full : RoomApi.HttpResponse :=
  RoomApi.mkHttpResponse 200
    (Ok (RoomApi.JObject
           [("id", RoomApi.JString "r-1");
            ("name", RoomApi.JString "x");
            ("config",
             RoomApi.JObject
               [("enable_dialout", RoomApi.JBool true);
                ("sip", RoomApi.JObject [("sip_mode", RoomApi.JString "dial-in")]);
                ("sip_uri",
                 RoomApi.JObject
                   [("endpoint", RoomApi.JString "x.0@daily-app.example")])])]))
    (Ok EmptyString).

(** A rendering of decoded values that are not strings, for the examples. *)
Definition str_example (v : RoomApi.JSON) : string := "?".

Definition room_200 : RoomApi.HttpResponse :=
  RoomApi.mkHttpResponse 200
    (Ok (RoomApi.room_with_endpoint (RoomApi.JString "x.0@daily-app.example")))
    (Ok EmptyString).

Definition room_200_null_config : RoomApi.HttpResponse :=
  RoomApi.mkHttpResponse 200
    (Ok (RoomApi.JObject [("config", RoomApi.JNull)]))
    (Ok EmptyString).

Definition room_404 : RoomApi.HttpResponse :=
  RoomApi.mkHttpResponse 404 (Raise (OSError "ContentTypeError")) (Ok "not found").

End MoreExamples.

(* ================================================================== *)
(** * Properties *)

Lemma Ok_inj {A} (a b : A) : Ok a = Ok b -> a = b.
Proof. now intros [= ->]. Qed.

(** ** Strings *)

Section StringFacts.
Import PyStr.

Lemma lstrip_plus_no_leading (s : string) :
  no_leading_plus s = true -> lstrip_plus s = s.
Proof.
  destruct s as [|a s]; [reflexivity|].
  unfold lstrip_plus; simpl. intros H.
  apply negb_true_iff in H. now rewrite H.
Qed.

Lemma lstrip_plus_cons_plus (s : string) :
  lstrip_plus (String plus s) = lstrip_plus s.
Proof. reflexivity. Qed.

Lemma lstrip_plus_result (s : string) : no_leading_plus (lstrip_plus s) = true.
Proof.
  induction s as [|a s IH]; [reflexivity|].
  unfold lstrip_plus in *; simpl.
  destruct (Ascii.eqb a plus) eqn:E; [exact IH|].
  simpl. now rewrite E.
Qed.

Lemma lstrip_plus_idem (s : string) : lstrip_plus (lstrip_plus s) = lstrip_plus s.
Proof. apply lstrip_plus_no_leading, lstrip_plus_result. Qed.

Lemma no_leading_plus_neq (s t : string) :
  no_leading_plus s = true -> no_leading_plus t = false -> String.eqb s t = false.
Proof.
  intros Hs Ht. apply String.eqb_neq. intros ->. congruence.
Qed.

End StringFacts.

(** ** Dictionaries *)

Section DictFacts.
Context {V : Type}.
Implicit Types (d : Dict.t V) (k : string) (v : V).

Lemma get_set_same d k v : Dict.get (Dict.set d k v) k = Some v.
Proof.
  induction d as [|[k' v'] d IH]; simpl.
  - now rewrite String.eqb_refl.
  - destruct (String.eqb k k') eqn:E; simpl.
    + now rewrite String.eqb_refl.
    + now rewrite E.
Qed.

Lemma get_set_other d k k' v :
  k' <> k -> Dict.get (Dict.set d k v) k' = Dict.get d k'.
Proof.
  intros Hne. induction d as [|[k0 v0] d IH]; simpl.
  - apply String.eqb_neq in Hne. now rewrite Hne.
  - destruct (String.eqb k k0) eqn:E; simpl.
    + apply String.eqb_eq in E; subst k0.
      apply String.eqb_neq in Hne. now rewrite Hne.
    + now rewrite IH.
Qed.

Lemma keys_set d k v :
  Dict.keys (Dict.set d k v) =
  if Dict.mem d k then Dict.keys d else Dict.keys d ++ [k].
Proof.
  unfold Dict.mem, Dict.keys.
  induction d as [|[k0 v0] d IH]; simpl; [reflexivity|].
  destruct (String.eqb k k0) eqn:E; simpl.
  - apply String.eqb_eq in E. now subst.
  - rewrite IH. now destruct (Dict.get d k).
Qed.

Lemma get_none_not_in d k : Dict.get d k = None <-> ~ In k (Dict.keys d).
Proof.
  unfold Dict.keys.
  induction d as [|[k0 v0] d IH]; simpl; [tauto|].
  destruct (String.eqb k k0) eqn:E.
  - apply String.eqb_eq in E; subst. split; [discriminate | tauto].
  - apply String.eqb_neq in E. rewrite IH. split.
    + intros H [H1 | H1]; [congruence | tauto].
    + tauto.
Qed.

Lemma wf_empty : Dict.wf (@Dict.empty V).
Proof. constructor. Qed.

Lemma wf_set d k v : Dict.wf d -> Dict.wf (Dict.set d k v).
Proof.
  unfold Dict.wf. intros Hwf. rewrite keys_set.
  unfold Dict.mem. destruct (Dict.get d k) eqn:E; [exact Hwf|].
  apply get_none_not_in in E.
  apply NoDup_rev in Hwf. rewrite <- (rev_involutive (_ ++ _)).
  apply NoDup_rev. rewrite rev_app_distr. simpl.
  constructor; [now rewrite <- in_rev | exact Hwf].
Qed.

Lemma del_filter d k :
  Dict.wf d ->
  Dict.del d k = filter (fun kv => negb (String.eqb k (fst kv))) d.
Proof.
  unfold Dict.wf, Dict.keys.
  induction d as [|[k0 v0] d IH]; simpl; [reflexivity|].
  intros Hwf. inversion Hwf as [|? ? Hnotin Hwf']; subst.
  destruct (String.eqb k k0) eqn:E; simpl.
  - apply String.eqb_eq in E; subst k0.
    symmetry. apply forallb_filter_id.
    apply forallb_forall. intros [k1 v1] Hin. simpl.
    apply negb_true_iff, String.eqb_neq. intros ->.
    apply Hnotin. apply (in_map fst) in Hin. exact Hin.
  - now rewrite IH.
Qed.

Lemma get_filter_other d k k' :
  k' <> k ->
  Dict.get (filter (fun kv => negb (String.eqb k (fst kv))) d) k' = Dict.get d k'.
Proof.
  intros Hne. induction d as [|[k0 v0] d IH]; simpl; [reflexivity|].
  destruct (String.eqb k k0) eqn:E; simpl.
  - apply String.eqb_eq in E; subst k0.
    apply String.eqb_neq in Hne. now rewrite Hne.
  - now rewrite IH.
Qed.

Lemma get_filter_same d k :
  Dict.get (filter (fun kv => negb (String.eqb k (fst kv))) d) k = None.
Proof.
  induction d as [|[k0 v0] d IH]; simpl; [reflexivity|].
  destruct (String.eqb k k0) eqn:E; simpl; [exact IH|].
  now rewrite E.
Qed.

Lemma wf_filter d (f : string * V -> bool) : Dict.wf d -> Dict.wf (filter f d).
Proof.
  unfold Dict.wf, Dict.keys.
  induction d as [|[k0 v0] d IH]; simpl; [trivial|].
  intros Hwf. inversion Hwf as [|? ? Hnotin Hwf']; subst.
  destruct (f (k0, v0)); simpl; [|now apply IH].
  constructor; [|now apply IH].
  intros Hin. apply Hnotin.
  apply in_map_iff in Hin. destruct Hin as [[k1 v1] [Hk Hin]].
  apply filter_In in Hin. apply in_map_iff. exists (k1, v1). tauto.
Qed.

Lemma get_in d k v : Dict.get d k = Some v -> In (k, v) d.
Proof.
  induction d as [|[k0 v0] d IH]; simpl; [discriminate|].
  destruct (String.eqb k k0) eqn:E.
  - apply String.eqb_eq in E. intros [= ->]. left. now subst.
  - intros H. right. now apply IH.
Qed.

Lemma get_in_values d k v : Dict.get d k = Some v -> In v (Dict.values d).
Proof.
  intros H. apply get_in in H. unfold Dict.values.
  apply in_map_iff. now exists (k, v).
Qed.

End DictFacts.

(** ** The lookup chain *)

Section Resolve.
Import PyStr PlivoHandlers.
Implicit Types (m : Mapping) (r : CallRecord).

Lemma truthy_ident (v : option string) :
  truthy v = nonempty (IdentityMapSpec.ident v).
Proof. now destruct v. Qed.

Lemma get_call_mapping_ident m (v : option string) :
  truthy v = true ->
  get_call_mapping m v = Dict.get m (IdentityMapSpec.ident v).
Proof. destruct v; [reflexivity | discriminate]. Qed.

Lemma phone_matches_strings (stored to_number : string) :
  phone_matches (Some stored) (Some to_number)
  = Ok (IdentityMapSpec.same_number stored to_number).
Proof.
  unfold phone_matches, IdentityMapSpec.same_number; simpl.
  destruct (String.eqb stored to_number); [reflexivity|].
  destruct (String.eqb stored (lstrip_plus to_number)); reflexivity.
Qed.

(** On a mapping whose stored numbers are strings the loop runs to its end
    or to its first match, which is what [find] computes. *)
Lemma search_values_find m (to_number : string) :
  IdentityMapSpec.phones_are_strings m = true ->
  search_values (Dict.items m) (Some to_number)
  = Ok (IdentityMapSpec.step5 m to_number).
Proof.
  unfold IdentityMapSpec.step5, Dict.items, Dict.values.
  induction m as [|[k v] m IH]; simpl; [reflexivity|].
  intros H. apply andb_true_iff in H. destruct H as [Hv Hm].
  unfold IdentityMapSpec.record_matches at 1.
  destruct (phone_number v) as [stored|]; [|discriminate].
  rewrite phone_matches_strings.
  destruct (IdentityMapSpec.same_number stored to_number); [reflexivity|].
  now apply IH.
Qed.

(** The loop when the request has no [To] field: it stops at the first
    record, with a match if that record has no number either and with
    [AttributeError] otherwise. *)
Lemma search_values_without_to k v (rest : Mapping) :
  search_values (Dict.items ((k, v) :: rest)) None
  = match phone_number v with
    | None => Ok (Some v)
    | Some _ => Raise (AttributeError "lstrip")
    end.
Proof. simpl. now destruct (phone_number v). Qed.

Lemma first_hit_none (attempts : list (option CallRecord)) :
  IdentityMapSpec.first_hit attempts = None <-> Forall (fun a => a = None) attempts.
Proof.
  induction attempts as [|[r|] rest IH]; simpl.
  - split; [constructor | trivial].
  - split; [discriminate | intros H; inversion H; discriminate].
  - rewrite IH. split; [now constructor | intros H; now inversion H].
Qed.

Lemma resolve_refines m (call_id call_uuid : option string) (to_number : string) :
  IdentityMapSpec.phones_are_strings m = true ->
  resolve m call_id call_uuid (Some to_number)
  = Ok (IdentityMapSpec.resolve m (IdentityMapSpec.ident call_id)
          (IdentityMapSpec.ident call_uuid) to_number).
Proof.
  intros Hm.
  unfold resolve, IdentityMapSpec.resolve, IdentityMapSpec.step1,
    IdentityMapSpec.step2, IdentityMapSpec.step3, IdentityMapSpec.step4_guarded,
    IdentityMapSpec.get.
  rewrite <- !truthy_ident.
  destruct (truthy call_id) eqn:Hid;
    [ rewrite (get_call_mapping_ident m call_id Hid);
      destruct (Dict.get m (IdentityMapSpec.ident call_id)); simpl;
      [reflexivity|]
    | simpl ];
    (destruct (truthy call_uuid) eqn:Hu;
     [ rewrite (get_call_mapping_ident m call_uuid Hu);
       destruct (Dict.get m (IdentityMapSpec.ident call_uuid)); simpl;
       [reflexivity|]
     | simpl ]);
    (destruct (nonempty to_number); simpl;
     [ destruct (Dict.get m to_number); simpl; [reflexivity|];
       destruct (Dict.get m (lstrip_plus to_number)); simpl; [reflexivity|]
     | ]);
    rewrite (search_values_find m to_number Hm);
    destruct (IdentityMapSpec.step5 m to_number); reflexivity.
Qed.

Lemma at_most_one_plus_cases (s : string) :
  IdentityMapSpec.at_most_one_plus s = true ->
  (no_leading_plus s = true /\ lstrip_plus s = s)
  \/ (exists s', s = String plus s' /\ no_leading_plus s' = true
                 /\ lstrip_plus s = s').
Proof.
  destruct s as [|a s]; simpl; [now left|].
  destruct (Ascii.eqb a plus) eqn:E; intros H.
  - right. exists s. apply Ascii.eqb_eq in E. subst a.
    rewrite lstrip_plus_cons_plus. now rewrite lstrip_plus_no_leading.
  - left. assert (Hn : no_leading_plus (String a s) = true) by (simpl; now rewrite E).
    split; [reflexivity | now apply lstrip_plus_no_leading].
Qed.

Lemma eqb_plus_no_leading (s t : string) :
  no_leading_plus t = true ->
  String.eqb (String plus s) t = false /\ String.eqb t (String plus s) = false.
Proof.
  intros Ht. split; apply String.eqb_neq; intros E; subst t;
    simpl in Ht; discriminate.
Qed.

(** For numbers with at most one leading ['+'] the comparison of the scan
    is equality of the two numbers once each has lost its ['+']. *)
Lemma same_number_normalised (stored to_number : string) :
  IdentityMapSpec.at_most_one_plus stored = true ->
  IdentityMapSpec.at_most_one_plus to_number = true ->
  IdentityMapSpec.same_number stored to_number
  = String.eqb (lstrip_plus stored) (lstrip_plus to_number).
Proof.
  intros Hs Ht. unfold IdentityMapSpec.same_number.
  destruct (at_most_one_plus_cases stored Hs) as [[Hs1 Hs2] | [s' [-> [Hs1 Hs2]]]];
    destruct (at_most_one_plus_cases to_number Ht) as [[Ht1 Ht2] | [t' [-> [Ht1 Ht2]]]];
    rewrite Hs2, Ht2.
  - destruct (String.eqb stored to_number); reflexivity.
  - destruct (eqb_plus_no_leading t' stored Hs1) as [_ E]. rewrite E.
    simpl. now rewrite orb_false_r.
  - destruct (eqb_plus_no_leading s' to_number Ht1) as [E _]. rewrite E.
    reflexivity.
  - destruct (eqb_plus_no_leading s' t' Ht1) as [E1 _].
    destruct (eqb_plus_no_leading t' s' Hs1) as [_ E2].
    rewrite E1, E2. simpl. now rewrite !orb_false_r.
Qed.

End Resolve.

Section ResolveClaims.
Import PyStr PlivoHandlers.
Implicit Types (m : Mapping) (r : CallRecord).

(** C1, as stated, fails in two ways.  In a state that holds a record
    without a number (an inbound call without [From]) ahead of the record
    that matches, the chain hits at its fifth step but the lookup raises
    [AttributeError].  And for an empty number the lookup does not try the
    fourth step: with the empty key stored for a later call, the chain
    returns that call's record, the lookup the first record of the scan. *)
Lemma C1_chain_as_stated_fails :
  (resolve MoreExamples.numberless_first None None (Some "+15550002")
   = Raise (AttributeError "lstrip")
   /\ IdentityMapSpec.resolve_as_stated MoreExamples.numberless_first
        EmptyString EmptyString "+15550002"
      = Some (mkCallRecord "sip:b@daily" (Some "15550002"))
   /\ resolve MoreExamples.numberless_first None None (Some "+15550002")
      <> Ok (IdentityMapSpec.resolve_as_stated MoreExamples.numberless_first
               EmptyString EmptyString "+15550002"))
  /\ (resolve MoreExamples.plus_only_calls None None (Some EmptyString)
      = Ok (Some (mkCallRecord "sip:a@daily" (Some "+")))
      /\ IdentityMapSpec.resolve_as_stated MoreExamples.plus_only_calls
           EmptyString EmptyString EmptyString
         = Some (mkCallRecord "sip:b@daily" (Some "++"))
      /\ resolve MoreExamples.plus_only_calls None None (Some EmptyString)
         <> Ok (IdentityMapSpec.resolve_as_stated MoreExamples.plus_only_calls
                  EmptyString EmptyString EmptyString)).
Proof.
  split; (split; [vm_compute; reflexivity|]);
    (split; [vm_compute; reflexivity|]); vm_compute; discriminate.
Qed.

(** C1, amended.  For every state of the mapping whose records carry a
    number and every triple of identifiers in which the number is a string,
    possibly empty (an absent call ID or call UUID counting as empty), the
    lookup of the answer webhook returns the first hit of the chain: exact
    lookup on the call ID if non-empty, else exact lookup on the call UUID
    if non-empty, else, both only if the number is non-empty, exact lookup
    on the number as given and then on the number without its leading
    ['+'], else the first record in scan order whose stored number equals
    the number as given, or once the ['+'] prefix is stripped from the
    number or from the stored number; and it finds nothing if and only if
    all five steps miss. *)
Theorem C1_resolve_first_hit_of_chain
    m (call_id call_uuid : option string) (to_number : string) :
  IdentityMapSpec.phones_are_strings m = true ->
  resolve m call_id call_uuid (Some to_number)
  = Ok (IdentityMapSpec.first_hit
          [IdentityMapSpec.step1 m (IdentityMapSpec.ident call_id);
           IdentityMapSpec.step2 m (IdentityMapSpec.ident call_uuid);
           IdentityMapSpec.step3 m to_number;
           IdentityMapSpec.step4_guarded m to_number;
           IdentityMapSpec.step5 m to_number])
  /\ (resolve m call_id call_uuid (Some to_number) = Ok None <->
      IdentityMapSpec.step1 m (IdentityMapSpec.ident call_id) = None
      /\ IdentityMapSpec.step2 m (IdentityMapSpec.ident call_uuid) = None
      /\ IdentityMapSpec.step3 m to_number = None
      /\ IdentityMapSpec.step4_guarded m to_number = None
      /\ IdentityMapSpec.step5 m to_number = None).
Proof.
  intros Hm. pose proof (resolve_refines m call_id call_uuid to_number Hm) as R.
  unfold IdentityMapSpec.resolve in R. split; [exact R|].
  rewrite R. split.
  - intros H. apply Ok_inj in H. apply first_hit_none in H.
    repeat match goal with
           | H : Forall _ (_ :: _) |- _ => inversion H; subst; clear H
           end.
    repeat split; assumption.
  - intros (H1 & H2 & H3 & H4 & H5). f_equal.
    apply first_hit_none. repeat constructor; assumption.
Qed.

Lemma C1_resolve_first_hit_of_chain_witness :
  IdentityMapSpec.phones_are_strings Examples.two_calls = true
  /\ resolve Examples.two_calls None (Some "zz") (Some "+15550002")
     = Ok (Some (mkCallRecord "sip:b@daily" (Some "15550002"))).
Proof.
  split; [reflexivity|].
  destruct (C1_resolve_first_hit_of_chain Examples.two_calls None (Some "zz")
              "+15550002" eq_refl) as [R _].
  rewrite R. reflexivity.
Defined.

Lemma resolve_ignores_empty_ids m (call_id call_uuid to_number : option string) :
  truthy call_id = false -> truthy call_uuid = false ->
  resolve m call_id call_uuid to_number = resolve m None None to_number.
Proof.
  intros H1 H2. unfold resolve. rewrite H1, H2. reflexivity.
Qed.

(** Where a lookup by number alone takes its record from. *)
Lemma resolve_by_number_source m (to_number : string) r' :
  IdentityMapSpec.phones_are_strings m = true ->
  resolve m None None (Some to_number) = Ok (Some r') ->
  exists k, In (k, r') m /\ IdentityMapSpec.stored_for to_number (k, r') = true.
Proof.
  intros Hm. rewrite (resolve_refines m None None to_number Hm).
  unfold IdentityMapSpec.resolve, IdentityMapSpec.step1, IdentityMapSpec.step2,
    IdentityMapSpec.step3, IdentityMapSpec.step4_guarded, IdentityMapSpec.step5,
    IdentityMapSpec.get, IdentityMapSpec.stored_for.
  simpl. intros H. apply Ok_inj in H.
  destruct (nonempty to_number).
  - destruct (Dict.get m to_number) as [r1|] eqn:G3.
    + injection H as ->. exists to_number. split; [now apply get_in|].
      simpl. now rewrite String.eqb_refl.
    + destruct (Dict.get m (lstrip_plus to_number)) as [r2|] eqn:G4.
      * injection H as ->. exists (lstrip_plus to_number).
        split; [now apply get_in|].
        simpl. rewrite String.eqb_refl. now rewrite orb_true_r.
      * destruct (find _ _) as [r3|] eqn:F; [|discriminate].
        injection H as ->. apply find_some in F. destruct F as [Hin Hmatch].
        apply in_map_iff in Hin. destruct Hin as [[k v] [Hv Hin]].
        simpl in Hv; subst v. exists k. split; [exact Hin|].
        simpl. rewrite Hmatch. now rewrite !orb_true_r.
  - destruct (find _ _) as [r3|] eqn:F; [|discriminate].
    injection H as ->. apply find_some in F. destruct F as [Hin Hmatch].
    apply in_map_iff in Hin. destruct Hin as [[k v] [Hv Hin]].
    simpl in Hv; subst v. exists k. split; [exact Hin|].
    simpl. rewrite Hmatch. now rewrite !orb_true_r.
Qed.

(** A stored record whose number matches guarantees a hit. *)
Lemma resolve_by_number_hits m (to_number : string) key r :
  IdentityMapSpec.phones_are_strings m = true ->
  In (key, r) m ->
  IdentityMapSpec.record_matches to_number r = true ->
  exists r', resolve m None None (Some to_number) = Ok (Some r').
Proof.
  intros Hm Hin Hmatch.
  rewrite (resolve_refines m None None to_number Hm).
  destruct (IdentityMapSpec.resolve m _ _ to_number) as [r'|] eqn:R;
    [now exists r'|].
  exfalso. unfold IdentityMapSpec.resolve in R.
  cbn [IdentityMapSpec.first_hit] in R.
  destruct (IdentityMapSpec.step1 _ _); [discriminate|].
  destruct (IdentityMapSpec.step2 _ _); [discriminate|].
  destruct (IdentityMapSpec.step3 _ _); [discriminate|].
  destruct (IdentityMapSpec.step4_guarded _ _); [discriminate|].
  destruct (IdentityMapSpec.step5 m to_number) eqn:F; [discriminate|].
  unfold IdentityMapSpec.step5 in F.
  assert (Hv : In r (Dict.values m)).
  { unfold Dict.values. apply in_map_iff. now exists (key, r). }
  pose proof (find_none _ _ F r Hv). congruence.
Qed.

Lemma found_by_number_intro m (call_id call_uuid : option string)
    (to_number : string) key r :
  truthy call_id = false -> truthy call_uuid = false ->
  IdentityMapSpec.phones_are_strings m = true ->
  In (key, r) m ->
  IdentityMapSpec.record_matches to_number r = true ->
  IdentityMapSpec.hits m call_id call_uuid to_number
  /\ (IdentityMapSpec.sole_record_for m to_number r ->
      IdentityMapSpec.finds m call_id call_uuid to_number r).
Proof.
  intros H1 H2 Hm Hin Hmatch.
  unfold IdentityMapSpec.hits, IdentityMapSpec.finds.
  rewrite (resolve_ignores_empty_ids m _ _ _ H1 H2).
  destruct (resolve_by_number_hits m to_number key r Hm Hin Hmatch) as [r' R].
  destruct (resolve_by_number_source m to_number r' Hm R) as [k [Hk Hs]].
  split.
  - exists r'. split; [exact R|].
    unfold Dict.values. apply in_map_iff. now exists (k, r').
  - intros Hsole. rewrite R. do 2 f_equal. exact (Hsole (k, r') Hk Hs).
Qed.

Lemma decided_by_scan_intro m (call_id call_uuid : option string)
    (to_number : string) :
  truthy call_id = false -> truthy call_uuid = false ->
  IdentityMapSpec.phones_are_strings m = true ->
  IdentityMapSpec.decided_by_scan m call_id call_uuid to_number.
Proof.
  intros H1 H2 Hm G3 G4.
  rewrite (resolve_ignores_empty_ids m _ _ _ H1 H2).
  rewrite (resolve_refines m None None to_number Hm).
  unfold IdentityMapSpec.resolve, IdentityMapSpec.step1, IdentityMapSpec.step2,
    IdentityMapSpec.step3, IdentityMapSpec.step4_guarded, IdentityMapSpec.get.
  simpl. rewrite G3, G4.
  destruct (nonempty to_number); simpl;
    destruct (IdentityMapSpec.step5 m to_number); reflexivity.
Qed.

Lemma record_matches_plus_query (number : string) r :
  no_leading_plus number = true ->
  phone_number r = Some number ->
  IdentityMapSpec.record_matches (String plus number) r = true.
Proof.
  intros Hn Hp. unfold IdentityMapSpec.record_matches, IdentityMapSpec.same_number.
  rewrite Hp, lstrip_plus_cons_plus, (lstrip_plus_no_leading number Hn).
  rewrite String.eqb_refl. now rewrite orb_true_r.
Qed.

Lemma record_matches_bare_query (number : string) r :
  no_leading_plus number = true ->
  phone_number r = Some (String plus number) ->
  IdentityMapSpec.record_matches number r = true.
Proof.
  intros Hn Hp. unfold IdentityMapSpec.record_matches, IdentityMapSpec.same_number.
  rewrite Hp, lstrip_plus_cons_plus, (lstrip_plus_no_leading number Hn).
  rewrite String.eqb_refl. now rewrite orb_true_r.
Qed.

(** C2, as stated, fails.  After two calls to one number, the first
    stored under ["+15551234567"] with that number and the second under
    ["15551234567"], the query ["15551234567"] does not find the first
    record: it returns the second.  And a record whose stored number lacks
    the ['+'] is not found by the ['+']-prefixed query through the scan
    when a record without a number is stored ahead of it: the lookup
    raises. *)
Lemma C2_bare_query_finds_other_record :
  (Dict.get MoreExamples.same_number_twice "+15551234567"
   = Some MoreExamples.first_call
   /\ phone_number MoreExamples.first_call = Some "+15551234567"
   /\ resolve MoreExamples.same_number_twice None None (Some "15551234567")
      = Ok (Some MoreExamples.second_call)
   /\ ~ IdentityMapSpec.finds MoreExamples.same_number_twice None None
          "15551234567" MoreExamples.first_call)
  /\ (In ("u7", Examples.bare_record) MoreExamples.numberless_then_bare
      /\ resolve MoreExamples.numberless_then_bare None None (Some "+15551234567")
         = Raise (AttributeError "lstrip")
      /\ ~ IdentityMapSpec.finds MoreExamples.numberless_then_bare None None
             "+15551234567" Examples.bare_record).
Proof.
  split.
  - split; [reflexivity|]. split; [reflexivity|]. split; [vm_compute; reflexivity|].
    unfold IdentityMapSpec.finds. vm_compute. discriminate.
  - split; [right; left; reflexivity|]. split; [vm_compute; reflexivity|].
    unfold IdentityMapSpec.finds. vm_compute. discriminate.
Qed.

(** C2, amended.  With an empty call ID and call UUID, in a state whose
    records carry a number: a record stored under ["+15551234567"] with
    that number is found by the query ["+15551234567"]; the query
    ["15551234567"] returns a stored record, and finds that record when no
    other record is stored for the number.  In the same way a record whose
    stored number lacks the ['+'] and the ['+']-prefixed query, and a
    record whose stored number has the ['+'] and the bare query: the
    lookup returns a stored record, finds the given one when no other is
    stored for the number, and is decided by the scan when nothing is
    stored under the number itself. *)
Theorem C2_plus_prefix_insensitive m r (call_id call_uuid : option string) :
  truthy call_id = false -> truthy call_uuid = false ->
  IdentityMapSpec.phones_are_strings m = true ->
  (Dict.get m "+15551234567" = Some r ->
   phone_number r = Some "+15551234567" ->
   IdentityMapSpec.finds m call_id call_uuid "+15551234567" r
   /\ IdentityMapSpec.hits m call_id call_uuid "15551234567"
   /\ (IdentityMapSpec.sole_record_for m "15551234567" r ->
       IdentityMapSpec.finds m call_id call_uuid "15551234567" r))
  /\ (forall key number,
        In (key, r) m -> no_leading_plus number = true ->
        (phone_number r = Some number ->
         IdentityMapSpec.hits m call_id call_uuid (String plus number)
         /\ (IdentityMapSpec.sole_record_for m (String plus number) r ->
             IdentityMapSpec.finds m call_id call_uuid (String plus number) r)
         /\ IdentityMapSpec.decided_by_scan m call_id call_uuid (String plus number))
        /\ (phone_number r = Some (String plus number) ->
            IdentityMapSpec.hits m call_id call_uuid number
            /\ (IdentityMapSpec.sole_record_for m number r ->
                IdentityMapSpec.finds m call_id call_uuid number r)
            /\ IdentityMapSpec.decided_by_scan m call_id call_uuid number)).
Proof.
  intros H1 H2 Hm. split.
  - intros Hget Hphone. split.
    + unfold IdentityMapSpec.finds.
      rewrite (resolve_ignores_empty_ids m _ _ _ H1 H2).
      unfold resolve. simpl. now rewrite Hget.
    + apply (found_by_number_intro m call_id call_uuid _ "+15551234567" r H1 H2 Hm).
      * now apply get_in.
      * now apply (record_matches_bare_query "15551234567").
  - intros key number Hin Hn. split; intros Hphone.
    + destruct (found_by_number_intro m call_id call_uuid (String plus number)
                  key r H1 H2 Hm Hin (record_matches_plus_query number r Hn Hphone))
        as [Hhit Hfind].
      split; [exact Hhit|]. split; [exact Hfind|].
      now apply decided_by_scan_intro.
    + destruct (found_by_number_intro m call_id call_uuid number
                  key r H1 H2 Hm Hin (record_matches_bare_query number r Hn Hphone))
        as [Hhit Hfind].
      split; [exact Hhit|]. split; [exact Hfind|].
      now apply decided_by_scan_intro.
Qed.

Lemma sole_record_singleton key r (to_number : string) :
  IdentityMapSpec.sole_record_for [(key, r)] to_number r.
Proof. intros kv [<- | []] _. reflexivity. Defined.

Lemma C2_plus_prefix_insensitive_witness :
  resolve Examples.stored_under_number None None (Some "+15551234567")
  = Ok (Some Examples.plus_record)
  /\ resolve Examples.stored_under_number None None (Some "15551234567")
     = Ok (Some Examples.plus_record)
  /\ resolve Examples.stored_under_uuid None None (Some "+15551234567")
     = Ok (Some Examples.bare_record).
Proof.
  destruct (C2_plus_prefix_insensitive Examples.stored_under_number
              Examples.plus_record None None eq_refl eq_refl eq_refl) as [A _].
  destruct (A eq_refl eq_refl) as (A1 & _ & A2).
  destruct (C2_plus_prefix_insensitive Examples.stored_under_uuid
              Examples.bare_record None None eq_refl eq_refl eq_refl) as [_ B].
  destruct (B "u7" "15551234567" (or_introl eq_refl) eq_refl) as [B1 _].
  destruct (B1 eq_refl) as (_ & B2 & _).
  split; [exact A1|]. split.
  - apply A2. apply sole_record_singleton.
  - apply B2. apply sole_record_singleton.
Defined.

(** C4, as stated, fails: a record stored only under the key ["abc"] is
    found when ["abc"] is supplied in the call-UUID position alone, whether
    the other identifiers are absent or empty strings. *)
Lemma C4_uuid_position_does_not_miss :
  resolve Examples.stored_under_abc None (Some "abc") None <> Ok None
  /\ resolve Examples.stored_under_abc (Some EmptyString) (Some "abc")
       (Some EmptyString) <> Ok None.
Proof. split; discriminate. Qed.

(** C4, amended.  Call ID and call UUID are looked up in one and the same
    mapping: a record stored under a non-empty key is returned when that
    key is supplied in the call-ID position, and also when it is supplied
    in the call-UUID position with an empty call ID. *)
Theorem C4_single_key_space m (key sip : string) (phone : option string)
    (no_call_id call_uuid to_number : option string) :
  nonempty key = true ->
  truthy no_call_id = false ->
  resolve (store_call_mapping key sip phone m) (Some key) call_uuid to_number
  = Ok (Some (mkCallRecord sip phone))
  /\ resolve (store_call_mapping key sip phone m) no_call_id (Some key) to_number
     = Ok (Some (mkCallRecord sip phone)).
Proof.
  intros Hk Hc. unfold resolve, store_call_mapping. simpl.
  rewrite Hk, Hc, get_set_same. simpl. split; reflexivity.
Qed.

Lemma C4_single_key_space_witness :
  resolve Examples.stored_under_abc (Some "abc") None None
  = Ok (Some (mkCallRecord "sip:x@y" (Some "+1555000")))
  /\ resolve Examples.stored_under_abc None (Some "abc") None
     = Ok (Some (mkCallRecord "sip:x@y" (Some "+1555000"))).
Proof.
  exact (C4_single_key_space Dict.empty "abc" "sip:x@y" (Some "+1555000")
           None None None eq_refl eq_refl).
Defined.

End ResolveClaims.

(** ** Markup *)

Section XmlFacts.
Import PyStr.













End XmlFacts.

(** ** The webhook responder *)

Section Webhooks.
Import PyStr PlivoHandlers.
Implicit Types (m : Mapping) (request : Request).


(** C3 on the code.  The answer webhook does not raise, but the document
    it returns is not always well formed: the [From] field is written into
    the [callerId] attribute as it is.  For the call [u1] and a [From] that
    contains a double quote, the handler returns the dial markup with that
    value unescaped, and the markup is not well-formed XML: the quote ends
    the attribute value and a name character follows it directly. *)
Theorem C3_unescaped_caller_breaks_markup :
  plivo_answer_handler MoreExamples.answer_quoted_caller Examples.after_inbound_u1
  = Ok (PlainTextResponse
          (render (Dial MoreExamples.quoted_caller "30" "sip:x@y"))
          application_xml)
  /\ contains ("<Dial callerId=" ++ dquote ++ "a" ++ dquote ++ "b" ++ dquote
               ++ " timeout=")
       (render (Dial MoreExamples.quoted_caller "30" "sip:x@y")) = true
  /\ Xml.well_formed (render (Dial MoreExamples.quoted_caller "30" "sip:x@y"))
     = false
  /\ Xml.well_formed (render (Dial "+15550100" "30" "sip:x@y")) = true.
Proof. repeat split; vm_compute; reflexivity. Qed.



(** C5.  The hangup webhook, once the form is read, answers with the
    acknowledgment whether or not an entry exists for the call UUID; it
    removes the entry stored under that UUID and nothing else: the mapping
    afterwards is the mapping before without that key, so a lookup of the
    UUID finds nothing and a lookup of any other key (the caller's number,
    say) finds what it found before. *)
Theorem C5_hangup_removes_only_uuid request m form_data :
  Dict.wf m ->
  form request = Ok form_data ->
  fst (plivo_hangup_handler request m) = Ok (JSONResponse [("status", "received")])
  /\ Dict.wf (snd (plivo_hangup_handler request m))
  /\ (form_data "CallUUID" = None -> snd (plivo_hangup_handler request m) = m)
  /\ (forall uuid,
        form_data "CallUUID" = Some uuid ->
        snd (plivo_hangup_handler request m)
        = filter (fun kv => negb (String.eqb uuid (fst kv))) m
        /\ get_call_mapping (snd (plivo_hangup_handler request m)) (Some uuid) = None
        /\ (forall key, key <> uuid ->
              Dict.get (snd (plivo_hangup_handler request m)) key = Dict.get m key)).
Proof.
  intros Hwf Hform. unfold plivo_hangup_handler. rewrite Hform. simpl.
  assert (Hdel : forall uuid,
             (if Dict.mem m uuid then Dict.del m uuid else m)
             = filter (fun kv => negb (String.eqb uuid (fst kv))) m).
  { intros uuid. unfold Dict.mem.
    destruct (Dict.get m uuid) eqn:G; [now apply del_filter|].
    symmetry. apply forallb_filter_id. apply forallb_forall.
    intros [k v] Hin. simpl. apply negb_true_iff, String.eqb_neq. intros <-.
    apply get_none_not_in in G. apply G.
    unfold Dict.keys. apply in_map_iff. now exists (uuid, v). }
  split; [reflexivity|]. split; [|split].
  - destruct (form_data "CallUUID") as [uuid|]; [|exact Hwf].
    rewrite Hdel. now apply wf_filter.
  - now intros ->.
  - intros uuid ->. rewrite Hdel. split; [reflexivity|]. split.
    + simpl. apply get_filter_same.
    + intros key Hne. now apply get_filter_other.
Qed.

Lemma wf_after_inbound_u1 : Dict.wf Examples.after_inbound_u1.
Proof.
  unfold Dict.wf. simpl.
  repeat constructor; simpl; intuition discriminate.
Defined.

Lemma C5_hangup_removes_only_uuid_witness :
  fst (plivo_hangup_handler Examples.hangup_u1 Examples.after_inbound_u1)
  = Ok (JSONResponse [("status", "received")])
  /\ get_call_mapping
       (snd (plivo_hangup_handler Examples.hangup_u1 Examples.after_inbound_u1))
       (Some "u1") = None
  /\ Dict.get
       (snd (plivo_hangup_handler Examples.hangup_u1 Examples.after_inbound_u1))
       "+1555000" = Some Examples.record_u1.
Proof.
  destruct (C5_hangup_removes_only_uuid Examples.hangup_u1
              Examples.after_inbound_u1 _ wf_after_inbound_u1 eq_refl)
    as (Ack & _ & _ & Rem).
  destruct (Rem "u1" eq_refl) as (_ & Gone & Kept).
  split; [exact Ack|]. split; [exact Gone|].
  rewrite (Kept "+1555000"); [reflexivity | discriminate].
Defined.

End Webhooks.

(** ** The outbound pipeline *)

Section Outbound.
Import PyStr OutboundServer.

(** Case analysis on the next collaborator outcome or test of a run. *)
Ltac step_in H :=
  match type of H with
  | context [match ?x with _ => _ end] =>
      lazymatch x with
      | context [match _ with _ => _ end] => fail
      | _ => let E := fresh "E" in destruct x eqn:E
      end
  end.

Lemma outbound_runs env request w r w' :
  handle_outbound_call env request w = (r, w') ->
  (exists e evs,
      r = Raise e /\ status_of e = 500%Z
      /\ call_to_sip_mapping w' = call_to_sip_mapping w
      /\ history w' = history w ++ evs /\ no_store evs)
  \/ (exists data phone room token sip from_number p response,
        json request = Ok data
        /\ data "phone_number" = Some phone
        /\ create_daily_room env = Ok (Some room)
        /\ create_daily_token env (name room) = Ok (Token (Some token))
        /\ get_daily_sip_uri env (name room) = Ok (Some sip)
        /\ popen env (bot_argv (url room) token phone sip) = Ok p
        /\ getenv env "PLIVO_PHONE_NUMBER" = Some from_number
        /\ plivo_calls_create env from_number phone = Ok response
        /\ r = Ok (JSONResponse
                     [("status", "success");
                      ("message", ("Outbound call initiated to " ++ phone)%string);
                      ("room_url", url room); ("room_name", name room)])
        /\ history w' = history w
                        ++ outbound_calls env room token phone sip from_number
                        ++ map EvStore (stored_keys phone response)
        /\ call_to_sip_mapping w'
           = fold_left (fun m key => PlivoHandlers.store_call_mapping key sip (Some phone) m)
               (stored_keys phone response) (call_to_sip_mapping w)
        /\ bot_procs w' = bot_procs w ++ [mkProc p (bot_argv (url room) token phone sip)]).
Proof.
  unfold handle_outbound_call, handle_outbound_call_try, try_exceptM, bind, lift,
    require, call_create_daily_room, call_create_daily_token,
    call_get_daily_sip_uri, start_bot, place_call, call_popen, call_plivo_create,
    sleep, log, bot_procs_append, store_call_mapping, try_exceptM, bind, lift, ret, raise.
  intros H. simpl in H.
  repeat step_in H.
  all: injection H as <- <-.
  all: try (left; do 2 eexists;
            split; [reflexivity|]; split; [reflexivity|]; split; [reflexivity|];
            split;
            [ simpl; rewrite <- ?app_assoc;
              first [reflexivity | symmetry; apply app_nil_r]
            | intros key Hin; simpl in Hin; intuition discriminate ]).
  all: right.
  all: destruct (getenv env "PLIVO_PHONE_NUMBER") as [from_number|] eqn:Efrom;
    [ | exfalso;
        match goal with
        | H : negb _ = false |- _ =>
            simpl in H; rewrite !andb_false_r in H; discriminate
        end ].
  all: do 8 eexists; simpl; rewrite <- ?app_assoc.
  all: repeat split; try eassumption; try reflexivity.
  all: unfold uuid_keys;
    repeat match goal with
           | E : response_call_uuid _ = _ |- _ => rewrite E; clear E
           | E : nonempty ?u = _ |- context [nonempty ?u] => rewrite E
           end; reflexivity.
Qed.

Lemma no_store_follow (evs : list Event) :
  no_store evs -> stores_follow_place_call evs.
Proof.
  intros Hno l1 key l2 ->. exfalso. apply (Hno key).
  apply in_or_app. right. now left.
Qed.

(** Writes that all come after the return of the place-call request. *)
Lemma stores_after_return (pre post : list Event) :
  no_store pre ->
  stores_follow_place_call (pre ++ EvPlivoReturned :: post).
Proof.
  intros Hno l1 key l2. revert l1.
  induction pre as [|a pre IH]; intros l1 Heq.
  - destruct l1 as [|x l1]; simpl in Heq; [discriminate|].
    injection Heq as <- _. now left.
  - destruct l1 as [|x l1]; simpl in Heq.
    + injection Heq as -> _. exfalso. apply (Hno key). now left.
    + injection Heq as <- Heq. right. apply IH; [|exact Heq].
      intros k Hin. apply (Hno k). now right.
Qed.

Lemma outbound_calls_split env room token phone sip from_number :
  outbound_calls env room token phone sip from_number
  = [EvCreateRoom; EvCreateToken (name room); EvGetSipUri (name room);
     EvPopen (bot_argv (url room) token phone sip);
     EvSleep 5;
     EvPlivoCreate from_number phone
       (SERVER_URL env ++ "/plivo-answer") (SERVER_URL env ++ "/plivo-hangup")]
    ++ EvPlivoReturned :: [].
Proof. reflexivity. Qed.

(** C6.  In every successful outbound run the events are, in this order:
    room creation, token minting, SIP-URI resolution, the start of the
    worker, the five-second wait, the place-call request, its return, and
    then the writes to the mapping, under the target number as given,
    under the number without its ['+'] and, when the carrier's response
    carries an identifier, under that identifier.  So the worker is started
    and the wait is over before the request is issued, and every write
    comes after the request has returned. *)
Theorem C6_outbound_stage_order env request w response w' :
  handle_outbound_call env request w = (Ok response, w') ->
  exists room token phone sip from_number carrier_response evs,
    history w' = history w ++ evs
    /\ evs = outbound_calls env room token phone sip from_number
             ++ map EvStore (stored_keys phone carrier_response)
    /\ before (EvPopen (bot_argv (url room) token phone sip)) (EvSleep 5) evs
    /\ before (EvSleep 5)
         (EvPlivoCreate from_number phone
            (SERVER_URL env ++ "/plivo-answer") (SERVER_URL env ++ "/plivo-hangup"))
         evs
    /\ stores_follow_place_call evs
    /\ call_to_sip_mapping w'
       = fold_left
           (fun m key => PlivoHandlers.store_call_mapping key sip (Some phone) m)
           (stored_keys phone carrier_response) (call_to_sip_mapping w)
    /\ (forall bare,
          phone = String plus bare -> no_leading_plus bare = true ->
          stored_keys phone carrier_response
          = String plus bare :: bare
            :: uuid_keys (response_call_uuid carrier_response)).
Proof.
  intros H. apply outbound_runs in H.
  destruct H as [(e & evs & Hr & _) | H]; [discriminate|].
  destruct H as (data & phone & room & token & sip & from_number & p & resp
                 & _ & _ & _ & _ & _ & _ & _ & _ & _ & Hh & Hm & _).
  exists room, token, phone, sip, from_number, resp.
  eexists. split; [exact Hh|]. split; [reflexivity|].
  split; [|split; [|split; [|split]]].
  - exists [EvCreateRoom; EvCreateToken (name room); EvGetSipUri (name room)], [].
    eexists. reflexivity.
  - exists [EvCreateRoom; EvCreateToken (name room); EvGetSipUri (name room);
            EvPopen (bot_argv (url room) token phone sip)], [].
    eexists. reflexivity.
  - rewrite outbound_calls_split, <- app_assoc. simpl app at 2.
    apply stores_after_return.
    intros key Hin. simpl in Hin. intuition discriminate.
  - exact Hm.
  - intros bare -> Hbare. unfold stored_keys.
    now rewrite lstrip_plus_cons_plus, (lstrip_plus_no_leading bare Hbare).
Qed.

Lemma C6_outbound_stage_order_witness :
  exists response w' evs,
    handle_outbound_call Examples.all_succeed Examples.outbound_ok
      Examples.empty_world = (Ok response, w')
    /\ history w' = history Examples.empty_world ++ evs
    /\ stores_follow_place_call evs.
Proof.
  do 2 eexists.
  eassert (Hrun : handle_outbound_call Examples.all_succeed Examples.outbound_ok
                    Examples.empty_world = (Ok _, _))
    by (vm_compute; reflexivity).
  destruct (C6_outbound_stage_order _ _ _ _ _ Hrun)
    as (room & token & phone & sip & from_number & resp & evs
        & Hh & _ & _ & _ & Hfollow & _).
  exists evs. split; [exact Hrun|]. split; [exact Hh | exact Hfollow].
Defined.

(** C9.  An outbound run that raises leaves the mapping as it was; a run
    returns normally only if room creation, token minting, SIP-URI
    resolution, the start of the worker and the carrier's place-call
    request have all succeeded; and in every run each write to the mapping
    comes after the place-call request has returned. *)
Theorem C9_outbound_failure_leaves_mapping env request w r w' :
  handle_outbound_call env request w = (r, w') ->
  (forall e, r = Raise e -> call_to_sip_mapping w' = call_to_sip_mapping w)
  /\ (forall response, r = Ok response ->
        exists room token phone sip from_number p carrier_response,
          create_daily_room env = Ok (Some room)
          /\ create_daily_token env (name room) = Ok (Token (Some token))
          /\ get_daily_sip_uri env (name room) = Ok (Some sip)
          /\ popen env (bot_argv (url room) token phone sip) = Ok p
          /\ plivo_calls_create env from_number phone = Ok carrier_response)
  /\ (exists evs, history w' = history w ++ evs /\ stores_follow_place_call evs).
Proof.
  intros H. apply outbound_runs in H.
  destruct H as [(e & evs & -> & _ & Hm & Hh & Hno) | H].
  - split; [intros _ _; exact Hm|]. split; [discriminate|].
    exists evs. split; [exact Hh | now apply no_store_follow].
  - destruct H as (data & phone & room & token & sip & from_number & p & resp
                   & _ & _ & Hroom & Htoken & Hsip & Hpopen & _ & Hcall & -> & Hh & _).
    split; [discriminate|]. split.
    + intros _ _. exists room, token, phone, sip, from_number, p, resp.
      repeat split; assumption.
    + eexists. split; [exact Hh|].
      rewrite outbound_calls_split, <- app_assoc. simpl app at 2.
      apply stores_after_return.
      intros key Hin. simpl in Hin. intuition discriminate.
Qed.

Lemma C9_outbound_failure_leaves_mapping_witness :
  exists e w',
    handle_outbound_call Examples.carrier_fails Examples.outbound_ok
      Examples.empty_world = (Raise e, w')
    /\ call_to_sip_mapping w' = call_to_sip_mapping Examples.empty_world.
Proof.
  do 2 eexists.
  eassert (Hrun : handle_outbound_call Examples.carrier_fails Examples.outbound_ok
                    Examples.empty_world = (Raise _, _))
    by (vm_compute; reflexivity).
  destruct (C9_outbound_failure_leaves_mapping _ _ _ _ _ Hrun) as (Unchanged & _).
  split; [exact Hrun | exact (Unchanged _ eq_refl)].
Defined.

(** C7 on the code.  An outbound request whose JSON body has no
    [phone_number] (or an empty one) is answered with status 500, not with
    the 400 raised at line 113: that exception is caught by the handler's
    own [except Exception] and wrapped.  Nothing else happens: no room is
    created, nothing is written to the mapping, no worker is started. *)
Theorem C7_missing_number_answered_with_500 env request w data :
  json request = Ok data ->
  truthy (data "phone_number") = false ->
  handle_outbound_call env request w
  = (Raise (HTTPExceptionFrom 500 "Error processing outbound call: "
              (HTTPException 400 "Missing required parameter: phone_number")), w)
  /\ status_of (HTTPExceptionFrom 500 "Error processing outbound call: "
                  (HTTPException 400 "Missing required parameter: phone_number"))
     = 500%Z.
Proof.
  intros Hjson Hphone. split; [|reflexivity].
  unfold handle_outbound_call, handle_outbound_call_try, try_exceptM, bind,
    lift, require. rewrite Hjson.
  destruct (data "phone_number") as [s|]; [|reflexivity].
  simpl in Hphone. now rewrite Hphone.
Qed.

Lemma C7_missing_number_answered_with_500_witness :
  exists e,
    handle_outbound_call Examples.all_succeed Examples.outbound_no_number
      Examples.empty_world = (Raise e, Examples.empty_world)
    /\ status_of e = 500%Z.
Proof.
  eexists.
  apply (C7_missing_number_answered_with_500 Examples.all_succeed
           Examples.outbound_no_number Examples.empty_world Examples.no_fields).
  - reflexivity.
  - reflexivity.
Defined.

End Outbound.

(** ** The inbound pipeline and the administrative endpoint *)

Section Inbound.
Import PyStr InboundServer.

(** Starting the worker never raises and never touches the mapping. *)
Lemma start_bot_runs env room_url room_name token from_number sip w :
  exists w',
    start_bot env room_url room_name token from_number sip w = (Ok tt, w')
    /\ call_to_sip_mapping w' = call_to_sip_mapping w
    /\ exists evs, history w' = history w ++ evs /\ no_store evs.
Proof.
  unfold start_bot, try_exceptM, bind, lift, call_popen, bot_procs_append,
    sleep, log, ret, bind, lift.
  destruct (bot_file_exists env); simpl.
  - destruct (open_log_file env room_name); simpl.
    + destruct (popen env _); simpl.
      * eexists. split; [reflexivity|]. split; [reflexivity|].
        simpl. rewrite <- app_assoc. eexists. split; [reflexivity|].
        intros key Hin. simpl in Hin. intuition discriminate.
      * eexists. split; [reflexivity|]. split; [reflexivity|].
        exists []. split; [now rewrite app_nil_r | intros key []].
    + eexists. split; [reflexivity|]. split; [reflexivity|].
      exists []. split; [now rewrite app_nil_r | intros key []].
  - eexists. split; [reflexivity|]. split; [reflexivity|].
    exists []. split; [now rewrite app_nil_r | intros key []].
Qed.

(** C8.  The end-to-end inbound scenario.  With a room
    [{url: "https://r/x", name: "x"}], the token [tok], the SIP URI
    [sip:x@y] and a notification carrying [CallUUID = u1],
    [From = +1555000], [To = +1555999], and whatever happens when the
    worker is started: the handler writes the record under [u1],
    [+1555000] and [1555000], in this order; it answers with the document
    that dials [sip:x@y] with caller identity [+1555000]; and afterwards a
    lookup of [u1] gives the record with that SIP URI and that number. *)
Theorem C8_inbound_end_to_end env request w form_data :
  create_daily_room env = Ok (Some (mkRoom "https://r/x" "x")) ->
  create_daily_token env "x" = Ok (Token (Some "tok")) ->
  get_daily_sip_uri env "x" = Ok (Some "sip:x@y") ->
  form request = Ok form_data ->
  form_data "CallUUID" = Some "u1" ->
  form_data "From" = Some "+1555000" ->
  form_data "To" = Some "+1555999" ->
  exists w',
    handle_inbound_call env request w
    = (Ok (PlainTextResponse (render (Dial "+1555000" "30" "sip:x@y"))
             application_xml), w')
    /\ contains ("<Dial callerId=" ++ dquote ++ "+1555000" ++ dquote)
         (render (Dial "+1555000" "30" "sip:x@y")) = true
    /\ contains "<User>sip:x@y</User>"
         (render (Dial "+1555000" "30" "sip:x@y")) = true
    /\ call_to_sip_mapping w'
       = PlivoHandlers.store_call_mapping "1555000" "sip:x@y" (Some "+1555000")
           (PlivoHandlers.store_call_mapping "+1555000" "sip:x@y" (Some "+1555000")
              (PlivoHandlers.store_call_mapping "u1" "sip:x@y" (Some "+1555000")
                 (call_to_sip_mapping w)))
    /\ PlivoHandlers.get_call_mapping (call_to_sip_mapping w') (Some "u1")
       = Some (PlivoHandlers.mkCallRecord "sip:x@y" (Some "+1555000"))
    /\ PlivoHandlers.get_call_mapping (call_to_sip_mapping w') (Some "+1555000")
       = Some (PlivoHandlers.mkCallRecord "sip:x@y" (Some "+1555000"))
    /\ PlivoHandlers.get_call_mapping (call_to_sip_mapping w') (Some "1555000")
       = Some (PlivoHandlers.mkCallRecord "sip:x@y" (Some "+1555000")).
Proof.
  intros Hroom Htoken Hsip Hform Huuid Hfrom Hto.
  unfold handle_inbound_call, handle_inbound_call_try, try_exceptM, bind, lift,
    or_return, call_create_daily_room, call_create_daily_token,
    call_get_daily_sip_uri, log, store_call_mapping, ret, bind, lift.
  rewrite Hform, Huuid, Hfrom. simpl.
  rewrite Hroom. simpl. rewrite Htoken. simpl. rewrite Hsip. simpl.
  match goal with
  | |- context [start_bot ?e ?a ?b ?c ?d ?f ?w0] =>
      destruct (start_bot_runs e a b c d f w0) as (w' & Hrun & Hmap & _);
      rewrite Hrun
  end.
  exists w'. split; [reflexivity|].
  split; [vm_compute; reflexivity|]. split; [vm_compute; reflexivity|].
  rewrite Hmap. simpl call_to_sip_mapping.
  split; [reflexivity|].
  unfold PlivoHandlers.get_call_mapping, PlivoHandlers.store_call_mapping.
  split; [|split].
  - rewrite !get_set_other by discriminate. apply get_set_same.
  - rewrite get_set_other by discriminate. apply get_set_same.
  - apply get_set_same.
Qed.

(** The mapping the scenario leaves behind, starting from an empty one, is
    the one the hangup scenario starts from. *)
Lemma inbound_u1_leaves_three_keys :
  call_to_sip_mapping
    (snd (handle_inbound_call Examples.all_succeed Examples.inbound_u1
            Examples.empty_world))
  = Examples.after_inbound_u1.
Proof. vm_compute. reflexivity. Qed.

Lemma C8_inbound_end_to_end_witness :
  exists w',
    handle_inbound_call Examples.all_succeed Examples.inbound_u1 Examples.empty_world
    = (Ok (PlainTextResponse (render (Dial "+1555000" "30" "sip:x@y"))
             application_xml), w')
    /\ PlivoHandlers.get_call_mapping (call_to_sip_mapping w') (Some "u1")
       = Some Examples.record_u1.
Proof.
  destruct (C8_inbound_end_to_end Examples.all_succeed Examples.inbound_u1
              Examples.empty_world
              (fields [("CallUUID", "u1"); ("From", "+1555000"); ("To", "+1555999")]))
    as (w' & Hrun & _ & _ & _ & Hget & _);
    try (vm_compute; reflexivity).
  exists w'. split; [exact Hrun | exact Hget].
Defined.

(** C10.  [POST /store-call-mapping].  When one of [call_id], [sip_uri],
    [phone_number] is missing or falsy, the 400 raised inside the handler
    is caught by its own [except Exception] and raised again with status
    500, and the process state is unchanged.  When all three are present
    and truthy, the record is written under [call_id] and the answer is
    [{status: "success", call_id}]. *)
Theorem C10_store_mapping_endpoint request w data :
  json request = Ok data ->
  (forallb truthy [data "call_id"; data "sip_uri"; data "phone_number"] = false ->
   store_call_mapping_endpoint request w
   = (Raise (HTTPExceptionFrom 500 EmptyString
               (HTTPException 400 "Missing required fields")), w)
   /\ status_of (HTTPExceptionFrom 500 EmptyString
                   (HTTPException 400 "Missing required fields")) = 500%Z)
  /\ (forall call_id sip phone,
        data "call_id" = Some call_id -> nonempty call_id = true ->
        data "sip_uri" = Some sip -> nonempty sip = true ->
        data "phone_number" = Some phone -> nonempty phone = true ->
        exists w',
          store_call_mapping_endpoint request w
          = (Ok (JSONResponse [("status", "success"); ("call_id", call_id)]), w')
          /\ call_to_sip_mapping w'
             = PlivoHandlers.store_call_mapping call_id sip (Some phone)
                 (call_to_sip_mapping w)
          /\ PlivoHandlers.get_call_mapping (call_to_sip_mapping w') (Some call_id)
             = Some (PlivoHandlers.mkCallRecord sip (Some phone))).
Proof.
  intros Hjson.
  unfold store_call_mapping_endpoint, try_exceptM, bind, lift, store_call_mapping,
    ret, raise.
  rewrite Hjson. split.
  - intros Hall. split; [|reflexivity].
    destruct (data "call_id") as [c|]; [|reflexivity].
    destruct (data "sip_uri") as [s|]; [|reflexivity].
    now rewrite Hall.
  - intros call_id sip phone -> Hc -> Hs -> Hp. simpl.
    rewrite Hc, Hs, Hp. simpl.
    eexists. split; [reflexivity|]. split; [reflexivity|].
    simpl. apply get_set_same.
Qed.

Lemma C10_store_mapping_endpoint_witness :
  (exists e,
      store_call_mapping_endpoint Examples.store_incomplete Examples.empty_world
      = (Raise e, Examples.empty_world) /\ status_of e = 500%Z)
  /\ (exists w',
        store_call_mapping_endpoint Examples.store_ok Examples.empty_world
        = (Ok (JSONResponse [("status", "success"); ("call_id", "c1")]), w')
        /\ PlivoHandlers.get_call_mapping (call_to_sip_mapping w') (Some "c1")
           = Some (PlivoHandlers.mkCallRecord "sip:x@y" (Some "+1555000"))).
Proof.
  split.
  - destruct (C10_store_mapping_endpoint Examples.store_incomplete
                Examples.empty_world
                (fields [("call_id", "c1"); ("phone_number", "+1555000")]) eq_refl)
      as (Missing & _).
    eexists. apply Missing. vm_compute; reflexivity.
  - destruct (C10_store_mapping_endpoint Examples.store_ok Examples.empty_world
                (fields [("call_id", "c1"); ("sip_uri", "sip:x@y");
                         ("phone_number", "+1555000")]) eq_refl)
      as (_ & Present).
    destruct (Present "c1" "sip:x@y" "+1555000") as (w' & Hrun & _ & Hget);
      try (vm_compute; reflexivity).
    exists w'. split; [exact Hrun | exact Hget].
Defined.

End Inbound.

(* ================================================================== *)
(** * Further properties of the handlers *)

Section MappingStore.
Import PyStr PlivoHandlers.
Implicit Types (m : Mapping) (r : CallRecord).

(** X1.  Storing and looking up: after [store_call_mapping] the key gives
    the record just stored and every other key gives what it gave before;
    a key that was present keeps its place in the iteration order, a new
    key goes last. *)
Theorem X1_store_then_get m (key sip : string) (phone : option string)
    (other : string) :
  get_call_mapping (store_call_mapping key sip phone m) (Some other)
  = (if String.eqb other key then Some (mkCallRecord sip phone)
     else get_call_mapping m (Some other))
  /\ Dict.keys (store_call_mapping key sip phone m)
     = (if Dict.mem m key then Dict.keys m else Dict.keys m ++ [key]).
Proof.
  unfold get_call_mapping, store_call_mapping. split; [|apply keys_set].
  destruct (String.eqb other key) eqn:E.
  - apply String.eqb_eq in E. subst. apply get_set_same.
  - apply String.eqb_neq in E. now apply get_set_other.
Qed.

Lemma search_values_stored (items : list (string * CallRecord))
    (to_number : option string) r :
  search_values items to_number = Ok (Some r) ->
  exists key, In (key, r) items.
Proof.
  induction items as [|[k v] items IH]; simpl; [discriminate|].
  destruct (phone_matches (phone_number v) to_number) as [[|]|e].
  - intros H. apply Ok_inj in H. injection H as ->. exists k. now left.
  - intros H. destruct (IH H) as [key Hin]. exists key. now right.
  - discriminate.
Qed.

(** X2.  The lookup never makes a record up: whatever the identifiers,
    present or absent, and whatever the state, a record it returns is
    stored in the mapping under some key. *)
Theorem X2_resolve_returns_stored_record m
    (call_id call_uuid to_number : option string) r :
  resolve m call_id call_uuid to_number = Ok (Some r) ->
  exists key, In (key, r) m.
Proof.
  unfold resolve.
  assert (G : forall v, get_call_mapping m v = Some r -> exists key, In (key, r) m).
  { intros [k|]; simpl; [|discriminate]. intros H. exists k. now apply get_in. }
  destruct (truthy call_id);
    [destruct (get_call_mapping m call_id) as [r1|] eqn:G1|]; simpl;
    try (intros H; apply Ok_inj in H; apply (G call_id); congruence).
  all: destruct (truthy call_uuid);
    [destruct (get_call_mapping m call_uuid) as [r2|] eqn:G2|]; simpl;
    try (intros H; apply Ok_inj in H; apply (G call_uuid); congruence).
  all: destruct (truthy to_number);
    [destruct (get_call_mapping m to_number) as [r3|] eqn:G3;
     [|destruct (get_call_mapping m (option_map lstrip_plus to_number))
         as [r4|] eqn:G4]|]; simpl;
    try (intros H; apply Ok_inj in H; apply (G to_number); congruence);
    try (intros H; apply Ok_inj in H;
         apply (G (option_map lstrip_plus to_number)); congruence).
  all: apply search_values_stored.
Qed.

Lemma X2_resolve_returns_stored_record_witness :
  exists key,
    In (key, mkCallRecord "sip:b@daily" (Some "15550002")) Examples.two_calls.
Proof.
  apply (X2_resolve_returns_stored_record Examples.two_calls None (Some "zz")
           (Some "+15550002")).
  vm_compute. reflexivity.
Defined.

Lemma resolve_identifier_hit m (key : string) r
    (call_id other_uuid to_number : option string) :
  nonempty key = true ->
  Dict.get m key = Some r ->
  resolve m (Some key) other_uuid to_number = Ok (Some r)
  /\ (truthy call_id = false \/ get_call_mapping m call_id = None ->
      resolve m call_id (Some key) to_number = Ok (Some r)).
Proof.
  intros Hk Hget. unfold resolve. simpl. rewrite Hk, Hget. simpl.
  split; [reflexivity|]. intros [Hc | Hc].
  - rewrite Hc. reflexivity.
  - rewrite Hc. destruct (truthy call_id); reflexivity.
Qed.

(** X3.  An exact hit on an identifier ends the lookup: a non-empty call
    ID that is a key gives its record whatever the other identifiers and
    whatever else is stored; a non-empty call UUID that is a key gives its
    record whenever the call ID is empty or is not a key.  No scan takes
    place, so this holds also when [To] is absent or a stored record has
    no number. *)
Theorem X3_identifier_hit_ends_lookup m (key : string) r
    (call_id other_uuid to_number : option string) :
  nonempty key = true ->
  Dict.get m key = Some r ->
  resolve m (Some key) other_uuid to_number = Ok (Some r)
  /\ (truthy call_id = false \/ get_call_mapping m call_id = None ->
      resolve m call_id (Some key) to_number = Ok (Some r)).
Proof. apply resolve_identifier_hit. Qed.

Lemma X3_identifier_hit_ends_lookup_witness :
  resolve MoreExamples.numberless_first (Some "c9") None None
  = Ok (Some (mkCallRecord "sip:b@daily" (Some "15550002")))
  /\ resolve MoreExamples.numberless_first (Some "c1") (Some "c9") None
     = Ok (Some (mkCallRecord "sip:b@daily" (Some "15550002"))).
Proof.
  destruct (X3_identifier_hit_ends_lookup MoreExamples.numberless_first "c9"
              (mkCallRecord "sip:b@daily" (Some "15550002"))
              (Some "c1") None None eq_refl eq_refl) as [A B].
  split; [exact A | apply B; right; reflexivity].
Defined.

End MappingStore.

Section AnswerEdges.
Import PyStr PlivoHandlers.
Implicit Types (m : Mapping) (r : CallRecord) (request : Request).

(** Identifiers that are empty or are not keys play no part. *)
Lemma resolve_ids_miss m (call_id call_uuid to_number : option string) :
  truthy call_id = false \/ get_call_mapping m call_id = None ->
  truthy call_uuid = false \/ get_call_mapping m call_uuid = None ->
  resolve m call_id call_uuid to_number = resolve m None None to_number.
Proof.
  intros Hc Hu. unfold resolve.
  assert (E1 : (if truthy call_id then get_call_mapping m call_id else None) = None).
  { destruct Hc as [-> | ->]; [reflexivity | now destruct (truthy call_id)]. }
  rewrite E1. simpl.
  assert (E2 : (if truthy call_uuid then get_call_mapping m call_uuid else None) = None).
  { destruct Hu as [-> | ->]; [reflexivity | now destruct (truthy call_uuid)]. }
  rewrite E2. reflexivity.
Qed.

Lemma search_values_skips (earlier rest : Mapping) (to_number : string) :
  IdentityMapSpec.phones_are_strings earlier = true ->
  IdentityMapSpec.step5 earlier to_number = None ->
  search_values (earlier ++ rest) (Some to_number)
  = search_values rest (Some to_number).
Proof.
  unfold IdentityMapSpec.step5, Dict.values.
  induction earlier as [|[k v] earlier IH]; simpl; [reflexivity|].
  intros Ht Hf. apply andb_true_iff in Ht. destruct Ht as [Hv Ht].
  unfold IdentityMapSpec.record_matches in Hf at 1.
  destruct (phone_number v) as [stored|]; [|discriminate].
  rewrite phone_matches_strings.
  destruct (IdentityMapSpec.same_number stored to_number); [discriminate|].
  now apply IH.
Qed.

(** X4.  A stored record without a number stops the scan.  When the
    identifiers and the number find nothing by exact lookup and the scan
    reaches, before any match, a record whose [phone_number] is [None],
    the comparison raises [AttributeError]; the answer webhook then
    returns the error document, whatever is stored after that record. *)
Theorem X4_numberless_record_stops_scan request m form_data
    (to_number : string) (earlier later : Mapping) (key : string) r :
  form request = Ok form_data ->
  form_data "To" = Some to_number ->
  truthy (query_params request "call_id") = false
  \/ get_call_mapping m (query_params request "call_id") = None ->
  truthy (form_data "CallUUID") = false
  \/ get_call_mapping m (form_data "CallUUID") = None ->
  Dict.get m to_number = None ->
  Dict.get m (lstrip_plus to_number) = None ->
  m = earlier ++ (key, r) :: later ->
  IdentityMapSpec.phones_are_strings earlier = true ->
  IdentityMapSpec.step5 earlier to_number = None ->
  phone_number r = None ->
  resolve m (query_params request "call_id") (form_data "CallUUID")
    (Some to_number) = Raise (AttributeError "lstrip")
  /\ plivo_answer_handler request m
     = Ok (PlainTextResponse error_xml application_xml).
Proof.
  intros Hform Hto Hc Hu G3 G4 Hm Ht Hf Hp.
  assert (R : resolve m (query_params request "call_id") (form_data "CallUUID")
                (Some to_number) = Raise (AttributeError "lstrip")).
  { rewrite (resolve_ids_miss m _ _ _ Hc Hu). unfold resolve. simpl.
    rewrite G3, G4.
    assert (S : search_values (Dict.items m) (Some to_number)
                = Raise (AttributeError "lstrip")).
    { unfold Dict.items. rewrite Hm, (search_values_skips _ _ _ Ht Hf).
      simpl. rewrite Hp. reflexivity. }
    destruct (nonempty to_number); simpl; exact S. }
  split; [exact R|].
  unfold plivo_answer_handler, plivo_answer_try. rewrite Hform. simpl.
  rewrite Hto, R. reflexivity.
Qed.

Lemma X4_numberless_record_stops_scan_witness :
  resolve MoreExamples.numberless_first None None (Some "+15550002")
  = Raise (AttributeError "lstrip")
  /\ plivo_answer_handler MoreExamples.answer_to_15550002
       MoreExamples.numberless_first
     = Ok (PlainTextResponse error_xml application_xml).
Proof.
  apply (X4_numberless_record_stops_scan MoreExamples.answer_to_15550002
           MoreExamples.numberless_first
           (fields [("From", "+15550100"); ("To", "+15550002")])
           "+15550002" [] [("c9", mkCallRecord "sip:b@daily" (Some "15550002"))]
           "u0" (mkCallRecord "sip:old@daily" None));
    try reflexivity; left; reflexivity.
Defined.

(** X5.  An answer webhook without a [To] field, whose identifiers find
    nothing: on an empty mapping it returns the error document; otherwise
    only the first stored record counts.  If that record has no number it
    is taken as the match and the call is bridged to its SIP URI; if it
    has a number the comparison raises and the error document is
    returned. *)
Theorem X5_answer_without_to request m form_data :
  form request = Ok form_data ->
  form_data "To" = None ->
  truthy (query_params request "call_id") = false
  \/ get_call_mapping m (query_params request "call_id") = None ->
  truthy (form_data "CallUUID") = false
  \/ get_call_mapping m (form_data "CallUUID") = None ->
  plivo_answer_handler request m
  = Ok (PlainTextResponse
          (render
             match m with
             | [] => error_connecting
             | (_, first) :: _ =>
                 match phone_number first with
                 | None => Dial (fmt (form_data "From")) "30" (sip_uri first)
                 | Some _ => error_connecting
                 end
             end)
          application_xml).
Proof.
  intros Hform Hto Hc Hu.
  unfold plivo_answer_handler, plivo_answer_try. rewrite Hform. simpl.
  rewrite Hto, (resolve_ids_miss m _ _ _ Hc Hu). unfold resolve. simpl.
  destruct m as [|[k v] rest]; [reflexivity|].
  rewrite search_values_without_to.
  destruct (phone_number v); reflexivity.
Qed.

Lemma X5_answer_without_to_witness :
  plivo_answer_handler MoreExamples.answer_without_to MoreExamples.numberless_first
  = Ok (PlainTextResponse (render (Dial "+15550100" "30" "sip:old@daily"))
          application_xml).
Proof.
  apply (X5_answer_without_to MoreExamples.answer_without_to
           MoreExamples.numberless_first
           (fields [("CallUUID", "zz"); ("From", "+15550100")]));
    try reflexivity; [left | right]; reflexivity.
Defined.

Lemma render_dial_neq_terminal (callerId timeout user message : string) :
  render (Dial callerId timeout user) <> render (SpeakHangup message).
Proof.
  unfold render, create_xml_with_timeout, speak_hangup_xml, xml_declaration,
    newline, dquote.
  simpl. intros H. discriminate H.
Qed.

(** X6.  A document that dials is never a terminal document: whatever the
    caller identity, the timeout, the SIP URI and the spoken message, the
    two markups differ, so the carrier can never read the one for the
    other. *)
Theorem X6_dial_is_not_terminal (callerId timeout user message : string) :
  String.eqb (render (Dial callerId timeout user)) (render (SpeakHangup message))
  = false.
Proof. apply String.eqb_neq, render_dial_neq_terminal. Qed.

Lemma hangup_filters request m form_data (uuid : string) :
  Dict.wf m ->
  form request = Ok form_data ->
  form_data "CallUUID" = Some uuid ->
  snd (plivo_hangup_handler request m)
  = filter (fun kv => negb (String.eqb uuid (fst kv))) m.
Proof.
  intros Hwf Hform Huuid. unfold plivo_hangup_handler.
  rewrite Hform, Huuid. simpl. unfold Dict.mem.
  destruct (Dict.get m uuid) eqn:G; [now apply del_filter|].
  symmetry. apply forallb_filter_id. apply forallb_forall.
  intros [k v] Hin. simpl. apply negb_true_iff, String.eqb_neq. intros <-.
  apply get_none_not_in in G. apply G.
  unfold Dict.keys. apply in_map_iff. now exists (uuid, v).
Qed.

Lemma filter_twice {A} (f : A -> bool) (l : list A) :
  filter f (filter f l) = filter f l.
Proof.
  induction l as [|a l IH]; simpl; [reflexivity|].
  destruct (f a) eqn:E; simpl; [rewrite E; now f_equal | exact IH].
Qed.

(** X7.  The hangup webhook is idempotent on the mapping: a second
    delivery of the same notification changes nothing more. *)
Theorem X7_hangup_idempotent request m form_data :
  Dict.wf m ->
  form request = Ok form_data ->
  snd (plivo_hangup_handler request (snd (plivo_hangup_handler request m)))
  = snd (plivo_hangup_handler request m).
Proof.
  intros Hwf Hform.
  destruct (form_data "CallUUID") as [uuid|] eqn:Huuid.
  - rewrite (hangup_filters request m form_data uuid Hwf Hform Huuid).
    rewrite (hangup_filters request _ form_data uuid (wf_filter m _ Hwf) Hform Huuid).
    apply filter_twice.
  - unfold plivo_hangup_handler. rewrite Hform, Huuid. reflexivity.
Qed.

Lemma X7_hangup_idempotent_witness :
  snd (plivo_hangup_handler Examples.hangup_u1
         (snd (plivo_hangup_handler Examples.hangup_u1 Examples.after_inbound_u1)))
  = snd (plivo_hangup_handler Examples.hangup_u1 Examples.after_inbound_u1).
Proof.
  apply (X7_hangup_idempotent Examples.hangup_u1 Examples.after_inbound_u1
           (fields [("CallUUID", "u1"); ("HangupCause", "NORMAL_CLEARING");
                    ("Duration", "12")])).
  - apply wf_after_inbound_u1.
  - reflexivity.
Defined.

End AnswerEdges.

Section InboundRuns.
Import PyStr InboundServer.

Ltac next_case H :=
  match type of H with
  | context [match ?x with _ => _ end] =>
      lazymatch x with
      | context [match _ with _ => _ end] => fail
      | _ => let E := fresh "E" in destruct x eqn:E
      end
  end.

Lemma store_under_get (keys : list string) (sip : string) (phone : option string)
    (m : PlivoHandlers.Mapping) (key : string) :
  In key keys \/ Dict.get m key = Some (PlivoHandlers.mkCallRecord sip phone) ->
  Dict.get (store_under keys sip phone m) key
  = Some (PlivoHandlers.mkCallRecord sip phone).
Proof.
  unfold store_under. revert m.
  induction keys as [|k keys IH]; intros m H; simpl.
  - destruct H as [[] | H]. exact H.
  - apply IH. unfold PlivoHandlers.store_call_mapping.
    destruct (String.eqb key k) eqn:E.
    + apply String.eqb_eq in E. subst k. right. apply get_set_same.
    + apply String.eqb_neq in E. destruct H as [[H | H] | H].
      * congruence.
      * now left.
      * right. now rewrite get_set_other.
Qed.

(** Every run of the inbound handler: either a terminal document with the
    mapping and the workers untouched, or the dial document after the
    writes. *)
Lemma inbound_runs env request w r w' :
  handle_inbound_call env request w = (r, w') ->
  (exists message,
      r = Ok (PlainTextResponse (render (SpeakHangup message)) application_xml)
      /\ call_to_sip_mapping w' = call_to_sip_mapping w
      /\ bot_procs w' = bot_procs w)
  \/ (exists form_data uuid room token sip,
        form request = Ok form_data
        /\ form_data "CallUUID" = Some uuid
        /\ create_daily_room env = Ok (Some room)
        /\ create_daily_token env (name room) = Ok (Token (Some token))
        /\ get_daily_sip_uri env (name room) = Ok (Some sip)
        /\ r = Ok (PlainTextResponse
                     (render (Dial (fmt (py_or (form_data "From") (form_data "To")))
                                "30" sip))
                     application_xml)
        /\ call_to_sip_mapping w'
           = store_under (inbound_keys uuid (form_data "From")) sip
               (form_data "From") (call_to_sip_mapping w)
        /\ extends (bot_procs w') (bot_procs w)).
Proof.
  unfold handle_inbound_call, handle_inbound_call_try, start_bot, or_return,
    try_exceptM, bind, lift, call_create_daily_room, call_create_daily_token,
    call_get_daily_sip_uri, call_popen, sleep, log, bot_procs_append,
    store_call_mapping, try_exceptM, bind, lift, ret, raise.
  intros H. cbn beta iota in H.
  repeat next_case H.
  all: injection H as <- <-.
  all: lazymatch goal with
       | |- (exists _, Ok (PlainTextResponse (PlivoHandlers.dial_xml _ _) _) = _ /\ _)
            \/ _ => right; do 5 eexists
       | _ => left; unfold xml; eexists; split; [reflexivity|]; split; reflexivity
       end.
  all: split; [reflexivity|].
  all: split; [eassumption|].
  all: split; [reflexivity|].
  all: split; [eassumption|].
  all: split; [eassumption|].
  all: unfold inbound_keys, store_under;
    repeat match goal with
           | E : _ "From" = _ |- _ => rewrite E; clear E
           end;
    repeat match goal with
           | E : nonempty ?x = _ |- context [nonempty ?x] => rewrite E
           end.
  all: split; [reflexivity|].
  all: split; [reflexivity|].
  all: cbn [bot_procs];
    first [ eexists; reflexivity | exists []; symmetry; apply app_nil_r ].
Qed.

Lemma content_inj (a b c d : string) :
  Ok (PlainTextResponse a b) = Ok (PlainTextResponse c d) -> a = c.
Proof. intros H. now injection H. Qed.

(** X8.  The inbound handler never raises: for every request, every state
    and every behaviour of the collaborators (including exceptions of the
    room API and of the worker start) it returns a signaling document with
    the XML media type. *)
Theorem X8_inbound_never_raises env request w :
  exists d,
    fst (handle_inbound_call env request w)
    = Ok (PlainTextResponse (render d) application_xml).
Proof.
  destruct (handle_inbound_call env request w) as [r w'] eqn:E.
  apply inbound_runs in E. simpl.
  destruct E as [(message & -> & _) | E].
  - now exists (SpeakHangup message).
  - destruct E as (fd & uuid & room & token & sip & _ & _ & _ & _ & _ & -> & _).
    now eexists (Dial _ _ _).
Qed.

(** X9.  An inbound run that ends with a terminal document has changed
    nothing: the mapping and the list of workers are as before.  So a
    record is written, and a worker started, only in a run that answers
    with the dial document. *)
Theorem X9_inbound_failure_leaves_state env request w response w' :
  handle_inbound_call env request w = (Ok response, w') ->
  is_terminal response ->
  call_to_sip_mapping w' = call_to_sip_mapping w
  /\ bot_procs w' = bot_procs w.
Proof.
  intros H [message ->]. apply inbound_runs in H.
  destruct H as [(_ & _ & Hm & Hp) | H]; [now split|].
  destruct H as (fd & uuid & room & token & sip & _ & _ & _ & _ & _ & Hr & _).
  exfalso. apply content_inj in Hr. symmetry in Hr.
  exact (render_dial_neq_terminal _ _ _ _ Hr).
Qed.

Lemma X9_inbound_failure_leaves_state_witness :
  exists response w',
    handle_inbound_call MoreExamples.room_api_down Examples.inbound_u1
      Examples.empty_world = (Ok response, w')
    /\ call_to_sip_mapping w' = call_to_sip_mapping Examples.empty_world
    /\ bot_procs w' = bot_procs Examples.empty_world.
Proof.
  do 2 eexists.
  eassert (Hrun : handle_inbound_call MoreExamples.room_api_down
                    Examples.inbound_u1 Examples.empty_world = (Ok _, _))
    by (vm_compute; reflexivity).
  split; [exact Hrun|].
  apply (X9_inbound_failure_leaves_state _ _ _ _ _ Hrun).
  exists "Sorry, we're unable to connect your call at this time. Please try again later.".
  vm_compute. reflexivity.
Defined.

Lemma inbound_success env request w form_data (uuid : string) room
    (token sip : string) :
  form request = Ok form_data ->
  form_data "CallUUID" = Some uuid -> nonempty uuid = true ->
  create_daily_room env = Ok (Some room) ->
  create_daily_token env (name room) = Ok (Token (Some token)) ->
  nonempty token = true ->
  get_daily_sip_uri env (name room) = Ok (Some sip) -> nonempty sip = true ->
  exists w',
    handle_inbound_call env request w
    = (Ok (PlainTextResponse
             (render (Dial (fmt (py_or (form_data "From") (form_data "To")))
                        "30" sip))
             application_xml), w')
    /\ call_to_sip_mapping w'
       = store_under (inbound_keys uuid (form_data "From")) sip
           (form_data "From") (call_to_sip_mapping w)
    /\ PlivoHandlers.get_call_mapping (call_to_sip_mapping w') (Some uuid)
       = Some (PlivoHandlers.mkCallRecord sip (form_data "From")).
Proof.
  intros Hform Huuid Hu Hroom Htoken Ht Hsip Hs.
  unfold handle_inbound_call, handle_inbound_call_try, try_exceptM, bind, lift,
    or_return, call_create_daily_room, call_create_daily_token,
    call_get_daily_sip_uri, log, store_call_mapping, ret, bind, lift.
  rewrite Hform, Huuid, Hu. simpl.
  rewrite Hroom. simpl. rewrite Htoken, Ht. simpl.
  rewrite Hsip, Hs. simpl.
  unfold inbound_keys.
  destruct (form_data "From") as [number|];
    [destruct (nonempty number)|];
    match goal with
    | |- context [start_bot ?e ?a ?b ?c ?d ?f ?w0] =>
        destruct (start_bot_runs e a b c d f w0) as (w' & Hrun & Hmap & _);
        rewrite Hrun
    end;
    exists w'; (split; [reflexivity|]);
    match goal with
    | |- ?lhs = ?rhs /\ _ =>
        assert (Hstored : lhs = rhs) by (rewrite Hmap; reflexivity)
    end;
    (split; [exact Hstored|]); rewrite Hstored;
    first [ apply get_set_same
          | apply store_under_get; right; apply get_set_same ].
Qed.

(** X10.  Whenever the notification carries a call UUID and the room, the
    token and the SIP URI are obtained, the inbound handler answers with
    the dial document, whatever happens when the worker is started.  The
    caller identity is [From], or [To] when [From] is absent or empty; the
    record is written under the call UUID and, when there is a caller
    number, under that number with and without its ['+']; a call without
    [From] is stored with no number. *)
Theorem X10_inbound_success env request w form_data (uuid : string) room
    (token sip : string) :
  form request = Ok form_data ->
  form_data "CallUUID" = Some uuid -> nonempty uuid = true ->
  create_daily_room env = Ok (Some room) ->
  create_daily_token env (name room) = Ok (Token (Some token)) ->
  nonempty token = true ->
  get_daily_sip_uri env (name room) = Ok (Some sip) -> nonempty sip = true ->
  exists w',
    handle_inbound_call env request w
    = (Ok (PlainTextResponse
             (render (Dial (fmt (py_or (form_data "From") (form_data "To")))
                        "30" sip))
             application_xml), w')
    /\ call_to_sip_mapping w'
       = store_under (inbound_keys uuid (form_data "From")) sip
           (form_data "From") (call_to_sip_mapping w)
    /\ PlivoHandlers.get_call_mapping (call_to_sip_mapping w') (Some uuid)
       = Some (PlivoHandlers.mkCallRecord sip (form_data "From")).
Proof. apply inbound_success. Qed.

Lemma X10_inbound_success_witness :
  exists w',
    handle_inbound_call Examples.all_succeed MoreExamples.inbound_without_from
      Examples.empty_world
    = (Ok (PlainTextResponse (render (Dial "+1555999" "30" "sip:x@y"))
             application_xml), w')
    /\ call_to_sip_mapping w' = [("u2", PlivoHandlers.mkCallRecord "sip:x@y" None)].
Proof.
  destruct (X10_inbound_success Examples.all_succeed
              MoreExamples.inbound_without_from Examples.empty_world
              (fields [("CallUUID", "u2"); ("To", "+1555999")])
              "u2" (mkRoom "https://r/x" "x") "tok" "sip:x@y")
    as (w' & Hrun & Hmap & _); try reflexivity.
  exists w'. split; [exact Hrun | exact Hmap].
Defined.

(** X11.  Inbound call, then answer.  After an inbound run that obtained
    its room, the answer webhook that carries the same call UUID (and no
    call ID in its query) is answered with the document that dials the SIP
    URI of that room. *)
Theorem X11_inbound_then_answer env request w form_data (uuid : string) room
    (token sip : string) answer answer_form :
  form request = Ok form_data ->
  form_data "CallUUID" = Some uuid -> nonempty uuid = true ->
  create_daily_room env = Ok (Some room) ->
  create_daily_token env (name room) = Ok (Token (Some token)) ->
  nonempty token = true ->
  get_daily_sip_uri env (name room) = Ok (Some sip) -> nonempty sip = true ->
  form answer = Ok answer_form ->
  answer_form "CallUUID" = Some uuid ->
  truthy (query_params answer "call_id") = false ->
  PlivoHandlers.plivo_answer_handler answer
    (call_to_sip_mapping (snd (handle_inbound_call env request w)))
  = Ok (PlainTextResponse (render (Dial (fmt (answer_form "From")) "30" sip))
          application_xml).
Proof.
  intros Hform Huuid Hu Hroom Htoken Ht Hsip Hs Hanswer Hauuid Hid.
  destruct (inbound_success env request w form_data uuid room token sip
              Hform Huuid Hu Hroom Htoken Ht Hsip Hs) as (w' & Hrun & _ & Hget).
  rewrite Hrun. simpl snd.
  unfold PlivoHandlers.plivo_answer_handler, PlivoHandlers.plivo_answer_try.
  rewrite Hanswer. simpl. rewrite Hauuid.
  destruct (resolve_identifier_hit (call_to_sip_mapping w') uuid _
              (query_params answer "call_id") None (answer_form "To") Hu Hget)
    as [_ R].
  rewrite (R (or_introl Hid)). reflexivity.
Qed.

Lemma X11_inbound_then_answer_witness :
  PlivoHandlers.plivo_answer_handler MoreExamples.answer_u1
    (call_to_sip_mapping
       (snd (handle_inbound_call Examples.all_succeed Examples.inbound_u1
               Examples.empty_world)))
  = Ok (PlainTextResponse (render (Dial "+1555000" "30" "sip:x@y")) application_xml).
Proof.
  apply (X11_inbound_then_answer Examples.all_succeed Examples.inbound_u1
           Examples.empty_world
           (fields [("CallUUID", "u1"); ("From", "+1555000"); ("To", "+1555999")])
           "u1" (mkRoom "https://r/x" "x") "tok" "sip:x@y" MoreExamples.answer_u1
           (fields [("CallUUID", "u1"); ("From", "+1555000"); ("To", "+1555999")]));
    reflexivity.
Defined.

End InboundRuns.

Section OutboundRuns.
Import PyStr OutboundServer.

Lemma stored_keys_number (phone : string) (response : PlivoResponse)
    (to_number : string) :
  to_number = phone \/ to_number = lstrip_plus phone ->
  In to_number (stored_keys phone response).
Proof. unfold stored_keys. intros [-> | ->]; simpl; auto. Qed.

(** X12.  Outbound call, then answer.  After a successful outbound run
    for a number, an answer webhook whose [To] is that number, as given or
    without its ['+'], and whose identifiers are empty or unknown, is
    answered with the document that dials the SIP URI of the room of that
    run, which is also the SIP URI handed to the worker that was
    started. *)
Theorem X12_outbound_then_answer env request w response w' data (phone : string)
    answer answer_form (to_number : string) :
  handle_outbound_call env request w = (Ok response, w') ->
  json request = Ok data ->
  data "phone_number" = Some phone ->
  form answer = Ok answer_form ->
  answer_form "To" = Some to_number ->
  nonempty to_number = true ->
  to_number = phone \/ to_number = lstrip_plus phone ->
  truthy (query_params answer "call_id") = false
  \/ PlivoHandlers.get_call_mapping (call_to_sip_mapping w')
       (query_params answer "call_id") = None ->
  truthy (answer_form "CallUUID") = false
  \/ PlivoHandlers.get_call_mapping (call_to_sip_mapping w')
       (answer_form "CallUUID") = None ->
  exists room token sip p,
    get_daily_sip_uri env (name room) = Ok (Some sip)
    /\ PlivoHandlers.plivo_answer_handler answer (call_to_sip_mapping w')
       = Ok (PlainTextResponse (render (Dial (fmt (answer_form "From")) "30" sip))
               application_xml)
    /\ In (mkProc p (bot_argv (url room) token phone sip)) (bot_procs w').
Proof.
  intros Hrun Hjson Hphone Hform Hto Hne Hnum Hc Hu.
  apply outbound_runs in Hrun.
  destruct Hrun as [(e & evs & Hr & _) | Hrun]; [discriminate|].
  destruct Hrun as (data' & phone' & room & token & sip & from_number & p & resp
                    & Hjson' & Hphone' & _ & _ & Hsip & _ & _ & _ & _ & _ & Hm & Hp).
  rewrite Hjson in Hjson'. apply Ok_inj in Hjson'. subst data'.
  rewrite Hphone in Hphone'. injection Hphone' as <-.
  exists room, token, sip, p. split; [exact Hsip|]. split.
  - assert (Hget : Dict.get (call_to_sip_mapping w') to_number
                   = Some (PlivoHandlers.mkCallRecord sip (Some phone))).
    { rewrite Hm. apply (store_under_get (stored_keys phone resp)).
      left. now apply stored_keys_number. }
    unfold PlivoHandlers.plivo_answer_handler, PlivoHandlers.plivo_answer_try.
    rewrite Hform. simpl. rewrite Hto.
    rewrite (resolve_ids_miss _ _ _ _ Hc Hu).
    unfold PlivoHandlers.resolve. simpl. rewrite Hne. simpl.
    rewrite Hget. reflexivity.
  - rewrite Hp. apply in_or_app. right. now left.
Qed.

Lemma X12_outbound_then_answer_witness :
  exists response w' sip,
    handle_outbound_call Examples.all_succeed Examples.outbound_ok
      Examples.empty_world = (Ok response, w')
    /\ PlivoHandlers.plivo_answer_handler MoreExamples.answer_outbound
         (call_to_sip_mapping w')
       = Ok (PlainTextResponse (render (Dial "+15550100" "30" sip)) application_xml).
Proof.
  do 2 eexists.
  eassert (Hrun : handle_outbound_call Examples.all_succeed Examples.outbound_ok
                    Examples.empty_world = (Ok _, _))
    by (vm_compute; reflexivity).
  destruct (X12_outbound_then_answer _ _ _ _ _
              (fields [("phone_number", "+15551234567")]) "+15551234567"
              MoreExamples.answer_outbound
              (fields [("CallUUID", "carrier-7"); ("From", "+15550100");
                       ("To", "15551234567")])
              "15551234567" Hrun)
    as (room & token & sip & p & _ & Hanswer & _);
    try reflexivity; try (right; reflexivity); try (left; reflexivity).
  exists sip. split; [exact Hrun | exact Hanswer].
Defined.

(** X13.  Every error of the outbound handler is a 500: whatever fails,
    the missing number included, the exception that leaves the handler has
    status code 500. *)
Theorem X13_outbound_errors_are_500 env request w e w' :
  handle_outbound_call env request w = (Raise e, w') ->
  status_of e = 500%Z.
Proof.
  intros H. apply outbound_runs in H.
  destruct H as [(e' & evs & Hr & Hs & _) | H].
  - injection Hr as ->. exact Hs.
  - destruct H as (? & ? & ? & ? & ? & ? & ? & ? & _ & _ & _ & _ & _ & _ & _
                   & _ & Hr & _).
    discriminate.
Qed.

Lemma X13_outbound_errors_are_500_witness :
  exists e w',
    handle_outbound_call MoreExamples.room_api_down Examples.outbound_ok
      Examples.empty_world = (Raise e, w')
    /\ status_of e = 500%Z.
Proof.
  do 2 eexists.
  eassert (Hrun : handle_outbound_call MoreExamples.room_api_down
                    Examples.outbound_ok Examples.empty_world = (Raise _, _))
    by (vm_compute; reflexivity).
  split; [exact Hrun | exact (X13_outbound_errors_are_500 _ _ _ _ _ Hrun)].
Defined.

(** X14.  The carrier credentials are checked only after the worker has
    been started.  When the number, the room, the token, the SIP URI and
    the worker start all succeed but one of [PLIVO_AUTH_ID],
    [PLIVO_AUTH_TOKEN], [PLIVO_PHONE_NUMBER] is unset or empty, the run
    fails with status 500 after the room was created, the worker started
    and the five seconds waited: the worker stays in [bot_procs], the
    carrier is never called and the mapping is unchanged. *)
Theorem X14_credentials_checked_after_worker_start env request w data
    (phone : string) room (token sip : string) (p : nat) :
  json request = Ok data ->
  data "phone_number" = Some phone -> nonempty phone = true ->
  create_daily_room env = Ok (Some room) ->
  create_daily_token env (name room) = Ok (Token (Some token)) ->
  nonempty token = true ->
  get_daily_sip_uri env (name room) = Ok (Some sip) -> nonempty sip = true ->
  bot_file_exists env = true ->
  open_log_file env (name room) = Ok tt ->
  popen env (bot_argv (url room) token phone sip) = Ok p ->
  forallb truthy [getenv env "PLIVO_AUTH_ID"; getenv env "PLIVO_AUTH_TOKEN";
                  getenv env "PLIVO_PHONE_NUMBER"] = false ->
  handle_outbound_call env request w
  = (Raise (HTTPExceptionFrom 500 "Error processing outbound call: "
              (HTTPException 500 "Plivo credentials not configured")),
     mkWorld (call_to_sip_mapping w)
       (bot_procs w ++ [mkProc p (bot_argv (url room) token phone sip)])
       (history w
        ++ [EvCreateRoom; EvCreateToken (name room); EvGetSipUri (name room);
            EvPopen (bot_argv (url room) token phone sip); EvSleep 5])).
Proof.
  intros Hjson Hphone Hn Hroom Htoken Ht Hsip Hs Hbot Hopen Hpopen Hcreds.
  unfold handle_outbound_call, handle_outbound_call_try, try_exceptM, bind, lift,
    require, call_create_daily_room, call_create_daily_token,
    call_get_daily_sip_uri, start_bot, call_popen, sleep, log, bot_procs_append,
    try_exceptM, bind, lift, ret, raise.
  rewrite Hjson, Hphone, Hn. simpl.
  rewrite Hroom. simpl. rewrite Htoken, Ht. simpl. rewrite Hsip, Hs. simpl.
  rewrite Hbot. simpl. rewrite Hopen, Hpopen. simpl.
  simpl in Hcreds. rewrite Hcreds. simpl.
  rewrite <- !app_assoc. reflexivity.
Qed.

Lemma X14_credentials_checked_after_worker_start_witness :
  exists e,
    handle_outbound_call MoreExamples.no_credentials Examples.outbound_ok
      Examples.empty_world
    = (Raise e,
       mkWorld Dict.empty
         [mkProc 4242 (bot_argv "https://r/x" "tok" "+15551234567" "sip:x@y")]
         [EvCreateRoom; EvCreateToken "x"; EvGetSipUri "x";
          EvPopen (bot_argv "https://r/x" "tok" "+15551234567" "sip:x@y");
          EvSleep 5]).
Proof.
  eexists.
  apply (X14_credentials_checked_after_worker_start MoreExamples.no_credentials
           Examples.outbound_ok Examples.empty_world
           (fields [("phone_number", "+15551234567")]) "+15551234567"
           (mkRoom "https://r/x" "x") "tok" "sip:x@y" 4242);
    reflexivity.
Defined.

(** X15.  No rollback when the carrier refuses the call.  When everything
    up to the place-call request succeeds and the request raises, the run
    fails with status 500, nothing is written to the mapping, and the
    worker that was started stays in [bot_procs]. *)
Theorem X15_carrier_failure_keeps_worker env request w data
    (phone : string) room (token sip from_number : string) (p : nat) carrier_error :
  json request = Ok data ->
  data "phone_number" = Some phone -> nonempty phone = true ->
  create_daily_room env = Ok (Some room) ->
  create_daily_token env (name room) = Ok (Token (Some token)) ->
  nonempty token = true ->
  get_daily_sip_uri env (name room) = Ok (Some sip) -> nonempty sip = true ->
  bot_file_exists env = true ->
  open_log_file env (name room) = Ok tt ->
  popen env (bot_argv (url room) token phone sip) = Ok p ->
  truthy (getenv env "PLIVO_AUTH_ID") = true ->
  truthy (getenv env "PLIVO_AUTH_TOKEN") = true ->
  getenv env "PLIVO_PHONE_NUMBER" = Some from_number ->
  nonempty from_number = true ->
  plivo_calls_create env from_number phone = Raise carrier_error ->
  handle_outbound_call env request w
  = (Raise (HTTPExceptionFrom 500 "Error processing outbound call: "
              (HTTPExceptionFrom 500 "Failed to initiate Plivo call: "
                 carrier_error)),
     mkWorld (call_to_sip_mapping w)
       (bot_procs w ++ [mkProc p (bot_argv (url room) token phone sip)])
       (history w
        ++ [EvCreateRoom; EvCreateToken (name room); EvGetSipUri (name room);
            EvPopen (bot_argv (url room) token phone sip); EvSleep 5;
            EvPlivoCreate from_number phone
              (SERVER_URL env ++ "/plivo-answer")
              (SERVER_URL env ++ "/plivo-hangup")])).
Proof.
  intros Hjson Hphone Hn Hroom Htoken Ht Hsip Hs Hbot Hopen Hpopen
    Hid Htok Hfrom Hf Hcall.
  unfold handle_outbound_call, handle_outbound_call_try, try_exceptM, bind, lift,
    require, call_create_daily_room, call_create_daily_token,
    call_get_daily_sip_uri, start_bot, place_call, call_popen, call_plivo_create,
    sleep, log, bot_procs_append, try_exceptM, bind, lift, ret, raise.
  rewrite Hjson, Hphone, Hn. simpl.
  rewrite Hroom. simpl. rewrite Htoken, Ht. simpl. rewrite Hsip, Hs. simpl.
  rewrite Hbot. simpl. rewrite Hopen, Hpopen. simpl.
  rewrite Hid, Htok, Hfrom. simpl. rewrite Hf. simpl.
  rewrite Hcall. simpl.
  rewrite <- !app_assoc. reflexivity.
Qed.

Lemma X15_carrier_failure_keeps_worker_witness :
  exists e w',
    handle_outbound_call Examples.carrier_fails Examples.outbound_ok
      Examples.empty_world = (Raise e, w')
    /\ call_to_sip_mapping w' = Dict.empty
    /\ bot_procs w'
       = [mkProc 4242 (bot_argv "https://r/x" "tok" "+15551234567" "sip:x@y")].
Proof.
  do 2 eexists. split; [|split].
  - apply (X15_carrier_failure_keeps_worker Examples.carrier_fails
             Examples.outbound_ok Examples.empty_world
             (fields [("phone_number", "+15551234567")]) "+15551234567"
             (mkRoom "https://r/x" "x") "tok" "sip:x@y" "+15550100" 4242
             (OSError "connection refused"));
      reflexivity.
  - reflexivity.
  - reflexivity.
Defined.

End OutboundRuns.

Section StoreEndpoint.
Import PyStr.

(** Every run of [/store-call-mapping]. *)
Lemma store_endpoint_runs request w r w' :
  store_call_mapping_endpoint request w = (r, w') ->
  (exists e, r = Raise e /\ status_of e = 500%Z /\ w' = w)
  \/ (exists data call_id sip phone,
        json request = Ok data
        /\ data "call_id" = Some call_id /\ nonempty call_id = true
        /\ data "sip_uri" = Some sip
        /\ data "phone_number" = Some phone
        /\ r = Ok (JSONResponse [("status", "success"); ("call_id", call_id)])
        /\ call_to_sip_mapping w'
           = PlivoHandlers.store_call_mapping call_id sip (Some phone)
               (call_to_sip_mapping w)).
Proof.
  unfold store_call_mapping_endpoint, try_exceptM, bind, lift, store_call_mapping,
    ret, raise.
  destruct (json request) as [data|e0] eqn:Hjson.
  - destruct (data "call_id") as [call_id|] eqn:Hc;
      [destruct (data "sip_uri") as [sip|] eqn:Hs|].
    + simpl. destruct (nonempty call_id) eqn:Hnc; simpl.
      * destruct (nonempty sip) eqn:Hns; simpl.
        -- destruct (data "phone_number") as [phone|] eqn:Hp; simpl.
           ++ destruct (nonempty phone); simpl; intros [= <- <-].
              ** right. exists data, call_id, sip, phone. repeat split; eauto.
              ** left. eexists. repeat split.
           ++ intros [= <- <-]. left. eexists. repeat split.
        -- intros [= <- <-]. left. eexists. repeat split.
      * intros [= <- <-]. left. eexists. repeat split.
    + intros [= <- <-]. left. eexists. repeat split.
    + intros [= <- <-]. left. eexists. repeat split.
  - intros [= <- <-]. left. eexists. repeat split.
Qed.

(** X16.  Every error of [/store-call-mapping] is a 500 and leaves the
    process state as it was: a body that is not JSON, and a missing or
    empty field alike.  The endpoint never answers with a 4xx status. *)
Theorem X16_store_endpoint_errors_are_500 request w e w' :
  store_call_mapping_endpoint request w = (Raise e, w') ->
  status_of e = 500%Z /\ w' = w.
Proof.
  intros H. apply store_endpoint_runs in H.
  destruct H as [(e' & Hr & Hs & Hw) | H].
  - injection Hr as ->. now split.
  - destruct H as (? & ? & ? & ? & _ & _ & _ & _ & _ & Hr & _). discriminate.
Qed.

Lemma X16_store_endpoint_errors_are_500_witness :
  exists e,
    store_call_mapping_endpoint MoreExamples.not_json Examples.empty_world
    = (Raise e, Examples.empty_world)
    /\ status_of e = 500%Z.
Proof.
  eexists.
  eassert (Hrun : store_call_mapping_endpoint MoreExamples.not_json
                    Examples.empty_world = (Raise _, _))
    by (vm_compute; reflexivity).
  destruct (X16_store_endpoint_errors_are_500 _ _ _ _ Hrun) as [Hs _].
  split; [exact Hrun | exact Hs].
Defined.

(** X17.  Store, then answer.  After a successful [/store-call-mapping]
    for a call ID, an answer webhook that passes that call ID in its
    query is answered with the document that dials the stored SIP URI,
    whatever its form fields carry. *)
Theorem X17_store_then_answer request w response w' data answer answer_form :
  store_call_mapping_endpoint request w = (Ok response, w') ->
  json request = Ok data ->
  form answer = Ok answer_form ->
  query_params answer "call_id" = data "call_id" ->
  exists sip,
    data "sip_uri" = Some sip
    /\ PlivoHandlers.plivo_answer_handler answer (call_to_sip_mapping w')
       = Ok (PlainTextResponse (render (Dial (fmt (answer_form "From")) "30" sip))
               application_xml).
Proof.
  intros Hrun Hjson Hform Hq. apply store_endpoint_runs in Hrun.
  destruct Hrun as [(e & Hr & _) | Hrun]; [discriminate|].
  destruct Hrun as (data' & call_id & sip & phone & Hjson' & Hc & Hnc & Hs & Hp
                    & _ & Hm).
  rewrite Hjson in Hjson'. apply Ok_inj in Hjson'. subst data'.
  exists sip. split; [exact Hs|].
  unfold PlivoHandlers.plivo_answer_handler, PlivoHandlers.plivo_answer_try.
  rewrite Hform. simpl. rewrite Hq, Hc, Hm.
  assert (Hget : Dict.get (PlivoHandlers.store_call_mapping call_id sip (Some phone)
                             (call_to_sip_mapping w)) call_id
                 = Some (PlivoHandlers.mkCallRecord sip (Some phone)))
    by apply get_set_same.
  destruct (resolve_identifier_hit _ call_id _ None (answer_form "CallUUID")
              (answer_form "To") Hnc Hget) as [R _].
  rewrite R. reflexivity.
Qed.

Lemma X17_store_then_answer_witness :
  exists response w',
    store_call_mapping_endpoint Examples.store_ok Examples.empty_world
    = (Ok response, w')
    /\ PlivoHandlers.plivo_answer_handler MoreExamples.answer_with_call_id
         (call_to_sip_mapping w')
       = Ok (PlainTextResponse (render (Dial "+15550100" "30" "sip:x@y"))
               application_xml).
Proof.
  do 2 eexists.
  eassert (Hrun : store_call_mapping_endpoint Examples.store_ok
                    Examples.empty_world = (Ok _, _))
    by (vm_compute; reflexivity).
  split; [exact Hrun|].
  destruct (X17_store_then_answer _ _ _ _
              (fields [("call_id", "c1"); ("sip_uri", "sip:x@y");
                       ("phone_number", "+1555000")])
              MoreExamples.answer_with_call_id
              (fields [("CallUUID", "zz"); ("From", "+15550100");
                       ("To", "+15550002")])
              Hrun eq_refl eq_refl eq_refl) as (sip & Hsip & Hanswer).
  injection Hsip as <-. exact Hanswer.
Defined.

End StoreEndpoint.

Section RoomSipUri.
Import PyStr RoomApi.
Variable str : JSON -> string.

(** X18.  [get_daily_sip_uri] returns a SIP URI exactly on status 200.
    When it returns on a 200 the result is a string that begins with
    [sip:], hence truthy, so the handlers' test [if not sip_uri] can only
    fire on another status; on any other status it returns [None]. *)
Theorem X18_sip_uri_iff_status_200 (room_name : string) (response : HttpResponse)
    (v : option string) :
  get_daily_sip_uri str room_name response = Ok v ->
  (status response = 200%Z ->
   exists rest, v = Some ("sip:" ++ rest)%string /\ truthy v = true)
  /\ (status response <> 200%Z -> v = None).
Proof.
  unfold get_daily_sip_uri. intros H. split.
  - intros Hs. rewrite Hs in H. simpl in H.
    destruct (json_body response) as [result|]; simpl in H; [|discriminate].
    destruct (py_get result "config" (JObject [])) as [config|]; simpl in H;
      [|discriminate].
    destruct (py_get config "sip" (JObject [])); simpl in H; [|discriminate].
    destruct (py_get config "sip_uri" (JObject [])) as [sip_uri_config|];
      simpl in H; [|discriminate].
    destruct (py_get sip_uri_config "endpoint" JNull) as [sip_endpoint|];
      simpl in H; [|discriminate].
    destruct (truthy_json sip_endpoint); apply Ok_inj in H; subst v;
      eexists; split; reflexivity.
  - intros Hs. apply Z.eqb_neq in Hs. rewrite Hs in H.
    destruct (text response); simpl in H; [|discriminate].
    now apply Ok_inj in H.
Qed.

(** X19.  The room body and the SIP URI.  On status 200 with a JSON
    object: if the object has no [config] member the result is the
    fallback [sip:{room_name}@sip.daily.co]; if [config] is present but is
    not an object ([null], say) the call raises [AttributeError], because
    the default of [.get] applies only to a missing key; and if
    [config.sip_uri.endpoint] is a non-empty string the result is [sip:]
    followed by it, whatever else the body, [config] and [sip_uri]
    hold. *)
Theorem X19_sip_uri_from_room_body (room_name : string) (response : HttpResponse)
    (members : list (string * JSON)) :
  status response = 200%Z ->
  json_body response = Ok (JObject members) ->
  (member members "config" = None ->
   get_daily_sip_uri str room_name response
   = Ok (Some ("sip:" ++ room_name ++ "@sip.daily.co")%string))
  /\ (forall config,
        member members "config" = Some config ->
        (forall o, config <> JObject o) ->
        get_daily_sip_uri str room_name response = Raise (AttributeError "get"))
  /\ (forall config sip_uri endpoint,
        member members "config" = Some (JObject config) ->
        member config "sip_uri" = Some (JObject sip_uri) ->
        member sip_uri "endpoint" = Some (JString endpoint) ->
        nonempty endpoint = true ->
        get_daily_sip_uri str room_name response
        = Ok (Some ("sip:" ++ endpoint)%string)).
Proof.
  intros Hs Hbody. unfold get_daily_sip_uri. rewrite Hs, Hbody. simpl.
  split; [|split].
  - intros ->. reflexivity.
  - intros config -> Hno. destruct config; simpl; try reflexivity.
    exfalso. now apply (Hno members0).
  - intros config sip_uri endpoint -> Hsip Hend Hne. simpl.
    rewrite Hsip. simpl. rewrite Hend. simpl. now rewrite Hne.
Qed.

End RoomSipUri.

Lemma X18_sip_uri_iff_status_200_witness :
  (exists rest, Some "sip:x.0@daily-app.example" = Some ("sip:" ++ rest)%string)
  /\ (exists v,
        RoomApi.get_daily_sip_uri MoreExamples.str_example "x" MoreExamples.room_404
        = Ok v /\ v = None).
Proof.
  split.
  - destruct (X18_sip_uri_iff_status_200 MoreExamples.str_example "x"
                MoreExamples.room_200 (Some "sip:x.0@daily-app.example") eq_refl)
      as [On200 _].
    destruct (On200 eq_refl) as (rest & Hrest & _). now exists rest.
  - exists None. split; [reflexivity|].
    destruct (X18_sip_uri_iff_status_200 MoreExamples.str_example "x"
                MoreExamples.room_404 None eq_refl) as [_ Off200].
    apply Off200. discriminate.
Defined.

Lemma X19_sip_uri_from_room_body_witness :
  RoomApi.get_daily_sip_uri MoreExamples.str_example "x"
    MoreExamples.room_200_null_config = Raise (AttributeError "get")
  /\ RoomApi.get_daily_sip_uri MoreExamples.str_example "x"
       MoreExamples.room_200_full
     = Ok (Some "sip:x.0@daily-app.example").
Proof.
  split.
  - destruct (X19_sip_uri_from_room_body MoreExamples.str_example "x"
                MoreExamples.room_200_null_config _ eq_refl eq_refl)
      as (_ & NotObject & _).
    apply (NotObject RoomApi.JNull eq_refl). intros o. discriminate.
  - destruct (X19_sip_uri_from_room_body MoreExamples.str_example "x"
                MoreExamples.room_200_full _ eq_refl eq_refl)
      as (_ & _ & Endpoint).
    exact (Endpoint _ _ "x.0@daily-app.example" eq_refl eq_refl eq_refl eq_refl).
Defined.
